(** * process_batch.py: batch file processor for vectorization

    A shallow embedding of [backend/python-scripts/process_batch.py] and the
    properties of its six functions: [detect_language], [read_file_content],
    [vectorize_content], [process_file], [process_batch] and [main].

    Python values that end up in result dictionaries are values of [pyval];
    dictionaries keep their insertion order (association lists).  Code that
    touches the file system, the clock, the logger or standard output runs in
    a state-and-exception monad [M] over a [world]; [try_except] is Python's
    [try: ... except Exception as e: ...].  What the script gets from its
    interpreter and libraries (the locale codec, [hash], the JSON reader and
    writer, the TF-IDF vectorizer, the clock, I/O faults) is a field of
    [platform]. *)

From Stdlib Require Import QArith Ascii String.
From Stdlib.Strings Require Import Byte.
From stdpp Require Import gmap strings list pretty.

Local Open Scope string_scope.
Local Open Scope list_scope.
Local Open Scope Z_scope.

Set Warnings "-register-all".

(** ** Python values

    A [str] is the byte string of its UTF-8 encoding: the characters of
    ASCII are the bytes below 128, and the bytes of any other character are
    all 128 or above.  A [float] is a rational number: every finite
    double is one, and the rounding of an operation is not modelled. *)

Inductive pyval :=
| PNone
| PBool (b : bool)
| PInt (z : Z)
| PFloat (q : Q)
| PStr (s : string)
| PList (l : list pyval)
| PDict (d : list (string * pyval)).

(** Exceptions: the class name and [str(e)]. *)
Record exn := Exn { exn_class : string; exn_str : string }.

(** Truth value of an object, as tested by [if x] and [not x]. *)
Definition truthy (v : pyval) : bool :=
  match v with
  | PNone => false
  | PBool b => b
  | PInt z => negb (z =? 0)
  | PFloat q => negb (Qeq_bool q 0)
  | PStr s => negb (String.eqb s "")
  | PList l => match l with [] => false | _ => true end
  | PDict d => match d with [] => false | _ => true end
  end.

(** ** Dictionaries

    A dictionary is the list of its items in insertion order, with keys
    that do not repeat. *)

Section Dict.
Context {V : Type}.

Fixpoint dict_lookup (d : list (string * V)) (k : string) : option V :=
  match d with
  | [] => None
  | (k', v) :: d' => if String.eqb k' k then Some v else dict_lookup d' k
  end.

(** [d.get(k, dflt)] *)
Definition dict_get (d : list (string * V)) (k : string) (dflt : V) : V :=
  match dict_lookup d k with
  | Some v => v
  | None => dflt
  end.
End Dict.

(** [d[k]], which raises [KeyError] for a missing key. *)
Definition dict_item (d : pyval) (k : string) : exn + pyval :=
  match d with
  | PDict kvs =>
      match dict_lookup kvs k with
      | Some v => inr v
      | None => inl (Exn "KeyError" ("'" +:+ k +:+ "'"))
      end
  | _ => inl (Exn "TypeError" "object is not subscriptable")
  end.

(** [d.get(k, dflt)] on an object. *)
Definition py_get (d : pyval) (k : string) (dflt : pyval) : exn + pyval :=
  match d with
  | PDict kvs => inr (dict_get kvs k dflt)
  | _ => inl (Exn "AttributeError" "object has no attribute 'get'")
  end.

(** ** Sets of hashable values

    A [set] is kept as a list without repetition, in insertion order (the
    order in which Python enumerates a set is not specified). *)

Definition hashable (v : pyval) : bool :=
  match v with
  | PList _ | PDict _ => false
  | _ => true
  end.

Definition py_num (v : pyval) : option Q :=
  match v with
  | PBool b => Some (if b then 1%Q else 0%Q)
  | PInt z => Some (inject_Z z)
  | PFloat q => Some q
  | _ => None
  end.

(** [a == b] on hashable values. *)
Definition py_eqb (a b : pyval) : bool :=
  match a, b with
  | PNone, PNone => true
  | PStr x, PStr y => String.eqb x y
  | _, _ =>
      match py_num a, py_num b with
      | Some x, Some y => Qeq_bool x y
      | _, _ => false
      end
  end.

(** [s.add(x)] *)
Definition set_add (x : pyval) (s : list pyval) : exn + list pyval :=
  if hashable x
  then inr (if existsb (py_eqb x) s then s else s ++ [x])
  else inl (Exn "TypeError" "unhashable type").

(** ** Strings and paths ([str] methods and [posixpath], the [os.path] of
    POSIX systems) *)

Definition lower_ascii (c : ascii) : ascii :=
  let n := N_of_ascii c in
  if ((65 <=? n) && (n <=? 90))%N then ascii_of_N (n + 32) else c.

(** Lower-casing of ASCII: the letters A to Z; other bytes are left as they
    are. *)
Fixpoint ascii_lower (s : string) : string :=
  match s with
  | EmptyString => EmptyString
  | String c s' => String (lower_ascii c) (ascii_lower s')
  end.

(** [s.isascii()] *)
Fixpoint is_ascii (s : string) : bool :=
  match s with
  | EmptyString => true
  | String c s' => (N_of_ascii c <? 128)%N && is_ascii s'
  end.

(** [s.rfind(c)] counted from index [i] of the whole string: the highest
    index of [c], or -1. *)
Fixpoint rfind_from (c : ascii) (s : string) (i : Z) : Z :=
  match s with
  | EmptyString => -1
  | String a s' =>
      let r := rfind_from c s' (i + 1) in
      if 0 <=? r then r else if Ascii.eqb a c then i else -1
  end.

Definition rfind (c : ascii) (s : string) : Z := rfind_from c s 0.

(** [s[i:j]] and [s[i:]] for indices that are not negative. *)
Definition slice (s : string) (i j : Z) : string :=
  substring (Z.to_nat i) (Z.to_nat (j - i)) s.

Definition slice_from (s : string) (i : Z) : string :=
  substring (Z.to_nat i) (String.length s - Z.to_nat i) s.

(** The [while filenameIndex < dotIndex] loop of [genericpath._splitext]:
    [n] is the number of iterations left. *)
Fixpoint splitext_scan (p : string) (dotIndex : Z) (n : nat) (filenameIndex : Z)
  : string * string :=
  match n with
  | O => (p, "")
  | S n' =>
      if negb (String.eqb (slice p filenameIndex (filenameIndex + 1)) ".")
      then (slice p 0 dotIndex, slice_from p dotIndex)
      else splitext_scan p dotIndex n' (filenameIndex + 1)
  end.

(** [os.path.splitext(p)] *)
Definition splitext (p : string) : string * string :=
  let sepIndex := rfind "/" p in
  let dotIndex := rfind "." p in
  if sepIndex <? dotIndex
  then splitext_scan p dotIndex (Z.to_nat (dotIndex - (sepIndex + 1))) (sepIndex + 1)
  else (p, "").

(** [s.rstrip('/')] *)
Fixpoint rstrip_sep (s : string) : string :=
  match s with
  | EmptyString => EmptyString
  | String c s' =>
      let r := rstrip_sep s' in
      if String.eqb r "" && Ascii.eqb c "/" then "" else String c r
  end.

(** [os.path.split(p)] *)
Definition path_split (p : string) : string * string :=
  let i := rfind "/" p + 1 in
  let head := slice p 0 i in
  let tail := slice_from p i in
  (if negb (String.eqb head "") && negb (String.eqb (rstrip_sep head) "")
   then rstrip_sep head else head,
   tail).

(** [os.path.basename(p)] *)
Definition basename (p : string) : string :=
  slice_from p (rfind "/" p + 1).

(** [os.path.join(a, b)] *)
Definition path_join (a b : string) : string :=
  match b with
  | String "/" _ => b
  | _ =>
      if String.eqb a "" then b
      else if String.eqb (slice_from a (Z.of_nat (String.length a) - 1)) "/"
           then a +:+ b
           else a +:+ "/" +:+ b
  end.

(** ** The table of detect_language *)

Definition language_map : list (string * string) :=
  [ (".js", "javascript");
    (".jsx", "jsx");
    (".ts", "typescript");
    (".tsx", "tsx");
    (".py", "python");
    (".java", "java");
    (".c", "c");
    (".cpp", "cpp");
    (".h", "c");
    (".hpp", "cpp");
    (".cs", "csharp");
    (".go", "go");
    (".rb", "ruby");
    (".php", "php");
    (".swift", "swift");
    (".kt", "kotlin");
    (".rs", "rust");
    (".html", "html");
    (".css", "css");
    (".scss", "scss");
    (".json", "json");
    (".md", "markdown");
    (".xml", "xml");
    (".yaml", "yaml");
    (".yml", "yaml");
    (".sh", "shell");
    (".bat", "batch");
    (".ps1", "powershell") ].

(** ** The world the script runs in *)

(** Decoded text: a sequence of code points. *)
Definition text := list N.

Inductive entry :=
| File (data : list byte)
| Dir.

Inductive level := INFO | WARNING | ERROR.

(** The file system is flat: a finite map from path strings to entries.
    A path is a key by its spelling: the map does not know that [a/./b],
    [a//b] or [a/b/] name what [a/b] names, and it has no [..] and no
    symbolic link.  [ticks] counts the clock readings taken so far.
    [calls] is a ghost field: the arguments of the invocations of
    [process_file], in order. *)
Record world := World {
  fs : gmap string entry;
  ticks : nat;
  log : list (level * string);
  stdout : list string;
  calls : list string
}.

Definition set_fs (f : gmap string entry → gmap string entry) (w : world) : world :=
  World (f (fs w)) (ticks w) (log w) (stdout w) (calls w).
Definition set_ticks (f : nat → nat) (w : world) : world :=
  World (fs w) (f (ticks w)) (log w) (stdout w) (calls w).
Definition set_log (f : list (level * string) → list (level * string)) (w : world) : world :=
  World (fs w) (ticks w) (f (log w)) (stdout w) (calls w).
Definition set_stdout (f : list string → list string) (w : world) : world :=
  World (fs w) (ticks w) (log w) (f (stdout w)) (calls w).
Definition set_calls (f : list string → list string) (w : world) : world :=
  World (fs w) (ticks w) (log w) (stdout w) (f (calls w)).

Inductive io_op := OpMkdir | OpOpenRead | OpOpenWrite | OpWrite.

(** What the interpreter, the libraries and the operating system decide.
    - [decode]: the locale codec of [open(p, 'r', errors='replace')];
    - [encode]: the same codec on the way out;
    - [tfidf]: [TfidfVectorizer(max_features=100).fit_transform([c]).toarray()[0]],
      which can raise;
    - [py_hash]: the built-in [hash] on strings (salted per process);
    - [clock]: the successive values of [time.time()];
    - [json_load]: decoding and parsing of the manifest, at the documented
      type of a manifest, a dictionary of lists of paths;
    - [json_dumps]: [json.dumps];
    - [fault]: an I/O error that the flat file system does not explain
      (permissions, a full disk, a missing parent directory);
    - [unicode_lower]: [str.lower] on a string that is not pure ASCII,
      which follows the Unicode database of the interpreter. *)
Record platform := Platform {
  PYTHON_DEPS_AVAILABLE : bool;
  decode : list byte → text;
  encode : string → list byte;
  tfidf : text → exn + list Q;
  py_hash : string → Z;
  clock : nat → Q;
  json_load : list byte → exn + list (string * list string);
  json_dumps : pyval → string;
  fault : io_op → string → option exn;
  unicode_lower : string → string
}.

(** [s.lower()].  In a string of ASCII characters only the letters A to Z
    change; any other string is lower-cased after the Unicode database. *)
Definition lower (P : platform) (s : string) : string :=
  if is_ascii s then ascii_lower s else unicode_lower P s.

(** ** detect_language *)

Definition detect_language (P : platform) (file_path : string) : string :=
  let ext := lower P (splitext file_path).2 in
  dict_get language_map ext "unknown".

(** ** The monad: state and exceptions *)

Definition M (A : Type) : Type := world → (exn + A) * world.

Definition ret {A} (a : A) : M A := fun w => (inr a, w).

Definition bind {A B} (c : M A) (k : A → M B) : M B :=
  fun w =>
    match c w with
    | (inr a, w') => k a w'
    | (inl e, w') => (inl e, w')
    end.

Definition raise {A} (e : exn) : M A := fun w => (inl e, w).

(** [try: c  except Exception as e: h e].  The effects of [c] up to the
    exception stay. *)
Definition try_except {A} (c : M A) (h : exn → M A) : M A :=
  fun w =>
    match c w with
    | (inr a, w') => (inr a, w')
    | (inl e, w') => h e w'
    end.

(** [try: c  except <classes>: h e], for the exceptions that [catches]
    accepts; any other exception goes on. *)
Definition try_except_if {A} (catches : exn → bool) (c : M A) (h : exn → M A) : M A :=
  fun w =>
    match c w with
    | (inr a, w') => (inr a, w')
    | (inl e, w') => if catches e then h e w' else (inl e, w')
    end.

Definition lift {A} (r : exn + A) : M A :=
  match r with
  | inr a => ret a
  | inl e => raise e
  end.

Notation "'let*' x ':=' c 'in' k" := (bind c (fun x => k))
  (at level 10, x binder, c at level 100, k at level 200).
Notation "c ';;;' k" := (bind c (fun _ => k))
  (at level 100, k at level 200, right associativity).

(** [logger.info], [logger.warning], [logger.error] *)
Definition logger (l : level) (msg : string) : M unit :=
  fun w => (inr tt, set_log (fun ls => ls ++ [(l, msg)]) w).

(** [print(s)] *)
Definition print (s : string) : M unit :=
  fun w => (inr tt, set_stdout (fun out => out ++ [s]) w).

(** Ghost step at the entry of [process_file]: the call is recorded. *)
Definition enter_process_file (file_path : string) : M unit :=
  fun w => (inr tt, set_calls (fun cs => cs ++ [file_path]) w).

(** [os.path.exists(p)] *)
Definition os_path_exists (p : string) : M bool :=
  fun w => (inr (bool_decide (is_Some (fs w !! p))), w).

(** [os.path.isdir(p)] *)
Definition os_path_isdir (p : string) : M bool :=
  fun w => (inr (match fs w !! p with Some Dir => true | _ => false end), w).

(** [os.path.getsize(p)].  The size reported for a directory does not
    matter: opening it fails on both branches of the caller. *)
Definition os_path_getsize (p : string) : M Z :=
  fun w =>
    match fs w !! p with
    | Some (File data) => (inr (Z.of_nat (length data)), w)
    | Some Dir => (inr 4096, w)
    | None => (inl (Exn "FileNotFoundError" ("No such file or directory: " +:+ p)), w)
    end.

(** Universal newlines, the default of text mode: CR LF and a lone CR are
    read as LF. *)
Fixpoint translate_newlines (t : text) : text :=
  match t with
  | [] => []
  | 13%N :: t' =>
      match t' with
      | 10%N :: t'' => 10%N :: translate_newlines t''
      | _ => 10%N :: translate_newlines t'
      end
  | c :: t' => c :: translate_newlines t'
  end.

(** [f.read(size)]: [size] characters, the whole text when [size] is
    [None] or negative. *)
Definition text_read (t : text) (size : option Z) : text :=
  match size with
  | None => t
  | Some n => if n <? 0 then t else firstn (Z.to_nat n) t
  end.

(** ** Codecs

    Two codecs a locale can select, with [errors='replace'].  Latin-1 maps
    every byte to its code point.  UTF-8 replaces each ill-formed sequence
    (its longest well-formed prefix, or one stray byte) by U+FFFD. *)

Definition latin1_decode (bs : list byte) : text := map Byte.to_N bs.

Definition in_range (lo hi : N) (b : byte) : bool :=
  ((lo <=? Byte.to_N b) && (Byte.to_N b <=? hi))%N.

Definition cont_bits (b : byte) : N := (Byte.to_N b - 128)%N.

(** The range of the second byte after the lead byte [n]. *)
Definition second_byte_range (n : N) : N * N :=
  if (n =? 224)%N then (160, 191)%N
  else if (n =? 237)%N then (128, 159)%N
  else if (n =? 240)%N then (144, 191)%N
  else if (n =? 244)%N then (128, 143)%N
  else (128, 191)%N.

Definition second_ok (n : N) (b : byte) : bool :=
  in_range (second_byte_range n).1 (second_byte_range n).2 b.

Definition replacement : N := 65533%N.

Fixpoint utf8_decode (bs : list byte) : text :=
  match bs with
  | [] => []
  | b0 :: r0 =>
      let n := Byte.to_N b0 in
      if (n <? 128)%N then n :: utf8_decode r0
      else if (194 <=? n)%N && (n <=? 223)%N then
        match r0 with
        | [] => [replacement]
        | b1 :: r1 =>
            if in_range 128 191 b1
            then ((n - 192) * 64 + cont_bits b1)%N :: utf8_decode r1
            else replacement :: utf8_decode r0
        end
      else if (224 <=? n)%N && (n <=? 239)%N then
        match r0 with
        | [] => [replacement]
        | b1 :: r1 =>
            if second_ok n b1 then
              match r1 with
              | [] => [replacement]
              | b2 :: r2 =>
                  if in_range 128 191 b2
                  then ((n - 224) * 4096 + cont_bits b1 * 64 + cont_bits b2)%N
                         :: utf8_decode r2
                  else replacement :: utf8_decode r1
              end
            else replacement :: utf8_decode r0
        end
      else if (240 <=? n)%N && (n <=? 244)%N then
        match r0 with
        | [] => [replacement]
        | b1 :: r1 =>
            if second_ok n b1 then
              match r1 with
              | [] => [replacement]
              | b2 :: r2 =>
                  if in_range 128 191 b2 then
                    match r2 with
                    | [] => [replacement]
                    | b3 :: r3 =>
                        if in_range 128 191 b3
                        then ((n - 240) * 262144 + cont_bits b1 * 4096
                              + cont_bits b2 * 64 + cont_bits b3)%N
                               :: utf8_decode r3
                        else replacement :: utf8_decode r2
                    end
                  else replacement :: utf8_decode r1
              end
            else replacement :: utf8_decode r0
        end
      else replacement :: utf8_decode r0
  end.

(** ** The script *)

Section Script.
Variable P : platform.

(** [time.time()] *)
Definition time_time : M Q :=
  fun w => (inr (clock P (ticks w)), set_ticks S w).

(** [with open(p, 'r', errors='replace') as f: return f.read(size)] *)
Definition open_read_text (p : string) (size : option Z) : M text :=
  fun w =>
    match fault P OpOpenRead p with
    | Some e => (inl e, w)
    | None =>
        match fs w !! p with
        | Some (File data) =>
            (inr (text_read (translate_newlines (decode P data)) size), w)
        | Some Dir => (inl (Exn "IsADirectoryError" ("Is a directory: " +:+ p)), w)
        | None => (inl (Exn "FileNotFoundError" ("No such file or directory: " +:+ p)), w)
        end
    end.

(** [with open(p, 'r') as f: return json.load(f)] *)
Definition open_json_load (p : string) : M (list (string * list string)) :=
  fun w =>
    match fault P OpOpenRead p with
    | Some e => (inl e, w)
    | None =>
        match fs w !! p with
        | Some (File data) => (json_load P data, w)
        | Some Dir => (inl (Exn "IsADirectoryError" ("Is a directory: " +:+ p)), w)
        | None => (inl (Exn "FileNotFoundError" ("No such file or directory: " +:+ p)), w)
        end
    end.

(** [with open(p, 'w') as f: json.dump(v, f)].  When [open] raises,
    nothing changes; when the write raises after [open] has created or
    truncated the file, the file is left empty. *)
Definition open_json_dump (p : string) (v : pyval) : M unit :=
  fun w =>
    match fs w !! p with
    | Some Dir => (inl (Exn "IsADirectoryError" ("Is a directory: " +:+ p)), w)
    | _ =>
        match fault P OpOpenWrite p with
        | Some e => (inl e, w)
        | None =>
            match fault P OpWrite p with
            | Some e => (inl e, set_fs (insert p (File [])) w)
            | None => (inr tt, set_fs (insert p (File (encode P (json_dumps P v)))) w)
            end
        end
    end.

(** The first lines of [os.makedirs]: the path is split at its last
    component, a final separator set aside. *)
Definition split_last (name : string) : string * string :=
  let '(head, tail) := path_split name in
  if String.eqb tail "" then path_split head else (head, tail).

(** The directory that must hold [p] for [os.mkdir(p)] to work. *)
Definition parent_dir (p : string) : string := (split_last p).1.

(** [os.mkdir(p)].  The map tells three errors: the empty path names
    nothing, there is an entry at [p] already, or the parent of [p] is a
    file.  Any other error is a [fault]; a missing parent is one of them,
    which the map cannot tell (in [os.makedirs] the parent has been made
    or found before, possibly under another spelling, as for [a/./b]). *)
Definition os_mkdir (p : string) : M unit :=
  fun w =>
    if String.eqb p "" then
      (inl (Exn "FileNotFoundError" ("No such file or directory: " +:+ p)), w)
    else
      match fs w !! p with
      | Some _ => (inl (Exn "FileExistsError" ("File exists: " +:+ p)), w)
      | None =>
          match fs w !! parent_dir p with
          | Some (File _) =>
              (inl (Exn "NotADirectoryError" ("Not a directory: " +:+ p)), w)
          | _ =>
              match fault P OpMkdir p with
              | Some e => (inl e, w)
              | None => (inr tt, set_fs (insert p Dir) w)
              end
          end
      end.

(** [os.makedirs(name, exist_ok=True)], as the library defines it: the
    missing ancestors first, then the directory itself.  [fuel] bounds the
    depth of the recursion; it is never used up from [os_makedirs] below
    (the recursion limit of the interpreter is not modelled). *)
Fixpoint makedirs_rec (fuel : nat) (name : string) : M unit :=
  match fuel with
  | O => raise (Exn "RecursionError" "maximum recursion depth exceeded")
  | S fuel' =>
      let '(head, tail) := split_last name in
      let* done :=
        (if negb (String.eqb head "") && negb (String.eqb tail "") then
           let* found := os_path_exists head in
           if negb found then
             try_except_if (fun e => String.eqb (exn_class e) "FileExistsError")
               (makedirs_rec fuel' head) (fun _ => ret tt) ;;;
             ret (String.eqb tail ".")
           else ret false
         else ret false) in
      if done : bool then ret tt
      else
        try_except (os_mkdir name)
          (fun e =>
             let* is_dir := os_path_isdir name in
             if negb is_dir then raise e else ret tt)
  end.

Definition os_makedirs (name : string) : M unit :=
  makedirs_rec (S (String.length name)) name.

Definition read_file_content (file_path : string) (max_size : Z) : M text :=
  try_except
    (let* file_size := os_path_getsize file_path in
     if max_size <? file_size then
       logger WARNING ("File too large, truncating: " +:+ file_path +:+ " ("
                       +:+ pretty file_size +:+ " bytes)") ;;;
       open_read_text file_path (Some max_size)
     else
       open_read_text file_path None)
    (fun e =>
       logger ERROR ("Error reading file " +:+ file_path +:+ ": " +:+ exn_str e) ;;;
       ret []).

Definition vectorize_content (content : text) (file_path : string) : M pyval :=
  if negb (PYTHON_DEPS_AVAILABLE P) then
    ret (PDict [("success", PBool true);
                ("vector_size", PInt 100);
                ("vector_type", PStr "mock")])
  else
    try_except
      (let* dense_vector := lift (tfidf P content) in
       ret (PDict [("success", PBool true);
                   ("vector", PList (map PFloat dense_vector));
                   ("vector_size", PInt (Z.of_nat (length dense_vector)));
                   ("vector_type", PStr "tfidf")]))
      (fun e =>
         logger ERROR ("Error vectorizing " +:+ file_path +:+ ": " +:+ exn_str e) ;;;
         ret (PDict [("success", PBool false);
                     ("error", PStr (exn_str e))])).

(** The name of the artifact of [file_path] in [output_dir]. *)
Definition output_filename_of (file_path output_dir : string) : string :=
  path_join output_dir
    (pretty (py_hash P file_path `mod` 10000) +:+ "_" +:+ basename file_path
     +:+ ".vec.json").

Definition process_file (file_path output_dir : string) : M pyval :=
  enter_process_file file_path ;;;
  let* found := os_path_exists file_path in
  if negb found then
    ret (PDict [("success", PBool false);
                ("error", PStr ("File not found: " +:+ file_path))])
  else
    try_except
      (let language := detect_language P file_path in
       let* content := read_file_content file_path (1024 * 1024) in
       if match content with [] => true | _ => false end then
         ret (PDict [("success", PBool false);
                     ("error", PStr "Empty or unreadable file")])
       else
         let* vector_result := vectorize_content content file_path in
         let* ok := lift (dict_item vector_result "success") in
         if negb (truthy ok) then ret vector_result
         else
           let file_basename := basename file_path in
           let* now := time_time in
           let vector_data :=
             PDict [("file", PStr file_path);
                    ("language", PStr language);
                    ("timestamp", PFloat now);
                    ("vectorization", vector_result)] in
           let output_filename :=
             path_join output_dir
               (pretty (py_hash P file_path `mod` 10000) +:+ "_" +:+ file_basename
                +:+ ".vec.json") in
           open_json_dump output_filename vector_data ;;;
           ret (PDict [("success", PBool true);
                       ("language", PStr language);
                       ("output_file", PStr output_filename)]))
      (fun e =>
         logger ERROR ("Error processing " +:+ file_path +:+ ": " +:+ exn_str e) ;;;
         ret (PDict [("success", PBool false);
                     ("error", PStr (exn_str e))])).

(** The local variables of the loop of [process_batch]. *)
Record batch_acc := BatchAcc {
  results : list pyval;
  processed_count : Z;
  failed_count : Z;
  languages_detected : list pyval
}.

(** [for file_path in files: ...] *)
Fixpoint batch_loop (output_dir : string) (files : list string) (acc : batch_acc)
  : M batch_acc :=
  match files with
  | [] => ret acc
  | file_path :: rest =>
      let* result := process_file file_path output_dir in
      let results' := results acc ++ [result] in
      let* ok := lift (dict_item result "success") in
      if truthy ok then
        let* language := lift (py_get result "language" (PStr "unknown")) in
        let* languages' := lift (set_add language (languages_detected acc)) in
        batch_loop output_dir rest
          (BatchAcc results' (processed_count acc + 1) (failed_count acc) languages')
      else
        batch_loop output_dir rest
          (BatchAcc results' (processed_count acc) (failed_count acc + 1)
             (languages_detected acc))
  end.

(** [processed_count / total_time if total_time > 0 else 0] *)
Definition files_per_second (processed_count : Z) (total_time : Q) : pyval :=
  if Qlt_le_dec 0 total_time
  then PFloat (inject_Z processed_count / total_time)
  else PInt 0.

Definition process_batch (batch_file output_dir job_id : string) : M pyval :=
  let* start_time := time_time in
  try_except
    (os_makedirs output_dir ;;;
     let* batch_data := open_json_load batch_file in
     let files := dict_get batch_data "files" [] in
     if match files with [] => true | _ => false end then
       let* now := time_time in
       ret (PDict [("success", PBool false);
                   ("message", PStr "No files in batch");
                   ("files_processed", PInt 0);
                   ("processing_time", PFloat (now - start_time))])
     else
       logger INFO ("Processing batch of " +:+ pretty (Z.of_nat (length files))
                    +:+ " files for job " +:+ job_id) ;;;
       let* acc := batch_loop output_dir files (BatchAcc [] 0 0 []) in
       let* now := time_time in
       let total_time := (now - start_time)%Q in
       ret (PDict [("success", PBool true);
                   ("message", PStr ("Processed " +:+ pretty (processed_count acc)
                                     +:+ " files, " +:+ pretty (failed_count acc)
                                     +:+ " failed"));
                   ("files_processed", PInt (processed_count acc));
                   ("files_failed", PInt (failed_count acc));
                   ("vectors_created", PInt (processed_count acc));
                   ("languages_detected", PList (languages_detected acc));
                   ("processing_time", PFloat total_time);
                   ("files_per_second",
                     files_per_second (processed_count acc) total_time)]))
    (fun e =>
       logger ERROR ("Error processing batch: " +:+ exn_str e) ;;;
       let* now := time_time in
       ret (PDict [("success", PBool false);
                   ("message", PStr ("Batch processing error: " +:+ exn_str e));
                   ("files_processed", PInt 0);
                   ("processing_time", PFloat (now - start_time))])).

(** The parsed command line. *)
Record args := Args {
  args_batch_file : string;
  args_output_dir : string;
  args_job_id : string
}.

(** [main], after [parser.parse_args()]; the value is the exit status. *)
Definition main (a : args) : M Z :=
  let* found := os_path_exists (args_batch_file a) in
  if negb found then
    logger ERROR ("Batch file not found: " +:+ args_batch_file a) ;;;
    ret 1
  else
    let* result := process_batch (args_batch_file a) (args_output_dir a) (args_job_id a) in
    print (json_dumps P result) ;;;
    let* ok := lift (dict_item result "success") in
    ret (if truthy ok then 0 else 1).
End Script.

(** ** A concrete platform and a concrete file system

    Used to run the script on examples.  The codec is UTF-8.  [sample_tfidf]
    stands for the library: a text without a token of two word characters
    is an empty vocabulary, which the library rejects; for any other text
    the vector is [[1.0]], the vector of a text with one distinct token (no
    property below depends on the numbers in a vector).  [sample_json_load]
    is [json.load] restricted to the manifests that occur below, and
    [sample_json_dumps] does not render the document. *)

Definition dq : string := String (ascii_of_nat 34) "".

Fixpoint quoted_list (l : list string) : string :=
  match l with
  | [] => ""
  | [x] => dq +:+ x +:+ dq
  | x :: l' => dq +:+ x +:+ dq +:+ ", " +:+ quoted_list l'
  end.

Definition manifest_text (files : list string) : string :=
  "{" +:+ dq +:+ "files" +:+ dq +:+ ": [" +:+ quoted_list files +:+ "]}".

Definition is_word (c : N) : bool :=
  ((48 <=? c) && (c <=? 57) || (65 <=? c) && (c <=? 90)
   || (97 <=? c) && (c <=? 122) || (c =? 95))%N.

Fixpoint has_token (t : text) : bool :=
  match t with
  | c :: t' =>
      match t' with
      | c' :: _ => is_word c && is_word c' || has_token t'
      | [] => false
      end
  | [] => false
  end.

Definition sample_tfidf (content : text) : exn + list Q :=
  if has_token content then inr [1%Q]
  else inl (Exn "ValueError"
              "empty vocabulary; perhaps the documents only contain stop words").

Definition sample_hash (s : string) : Z := 7919 * Z.of_nat (String.length s) + 12345.

Definition sample_json_load (data : list byte) : exn + list (string * list string) :=
  let s := string_of_list_byte data in
  if String.eqb s (manifest_text []) then inr [("files", [])]
  else if String.eqb s (manifest_text ["a.py"; "missing.rs"])
       then inr [("files", ["a.py"; "missing.rs"])]
  else if String.eqb s (manifest_text ["a.py"; "x.md"; "e.txt"; "Lib.RS"])
       then inr [("files", ["a.py"; "x.md"; "e.txt"; "Lib.RS"])]
  else if String.eqb s "{}" then inr []
  else inl (Exn "JSONDecodeError" "Expecting value: line 1 column 1 (char 0)").

Definition sample_json_dumps (v : pyval) : string :=
  match v with
  | PDict _ => "{...}"
  | _ => "..."
  end.

(** A stand-in for the Unicode database: beside the letters of ASCII it
    knows one character, the Kelvin sign U+212A (the bytes 226, 132, 170),
    whose lower case is the letter k. *)
Fixpoint sample_unicode_lower (s : string) : string :=
  match s with
  | EmptyString => EmptyString
  | String c s1 =>
      match s1 with
      | String c1 (String c2 s3) =>
          if Ascii.eqb c "226" && Ascii.eqb c1 "132" && Ascii.eqb c2 "170"
          then String "k" (sample_unicode_lower s3)
          else String (lower_ascii c) (sample_unicode_lower s1)
      | _ => String (lower_ascii c) (sample_unicode_lower s1)
      end
  end.

Definition no_fault (op : io_op) (p : string) : option exn := None.

(** The disk fills up while an artifact is written. *)
Definition disk_full (op : io_op) (p : string) : option exn :=
  match op with
  | OpWrite => Some (Exn "OSError" "[Errno 28] No space left on device")
  | _ => None
  end.

(** Time advances by one second per reading, or stands still. *)
Definition ticking_clock (n : nat) : Q := inject_Z (Z.of_nat n).
Definition frozen_clock (n : nat) : Q := 0%Q.

Definition sample_platform (deps : bool) (clk : nat → Q)
    (flt : io_op → string → option exn) : platform :=
  Platform deps utf8_decode list_byte_of_string sample_tfidf sample_hash clk
    sample_json_load sample_json_dumps flt sample_unicode_lower.

Definition sample_fs : gmap string entry :=
  <["batch.json" := File (list_byte_of_string (manifest_text ["a.py"; "missing.rs"]))]>
  (<["four.json" := File (list_byte_of_string
                            (manifest_text ["a.py"; "x.md"; "e.txt"; "Lib.RS"]))]>
  (<["empty.json" := File (list_byte_of_string (manifest_text []))]>
  (<["nofiles.json" := File (list_byte_of_string "{}")]>
  (<["a.py" := File (list_byte_of_string "import os")]>
  (<["Lib.RS" := File (list_byte_of_string "fn main")]>
  (<["x.md" := File (list_byte_of_string "a")]>
  (<["e.txt" := File []]>
  (<["cafe.txt" := File [xc3; xa9; x61]]>
  (<["out" := Dir]> ∅))))))))).

Definition sample_world : world := World sample_fs 0 [] [] [].

(** The mock configuration (no scientific libraries) and the real one. *)
Definition mock_platform : platform := sample_platform false ticking_clock no_fault.
Definition real_platform : platform := sample_platform true ticking_clock no_fault.

(** ** Vocabulary of the statements *)

(** [occurs c s]: the character [c] occurs in [s]. *)
Fixpoint occurs (c : ascii) (s : string) : bool :=
  match s with
  | EmptyString => false
  | String a s' => Ascii.eqb a c || occurs c s'
  end.

(** The text of a file as text mode delivers it. *)
Definition text_of (P : platform) (data : list byte) : text :=
  translate_newlines (decode P data).

(** A per-file result counts as a success when its ["success"] is true. *)
Definition succeeded (r : pyval) : bool :=
  match dict_item r "success" with
  | inr v => truthy v
  | inl _ => false
  end.

(** Worlds that differ at most by log lines. *)
Definition same_but_log (w w' : world) : Prop :=
  fs w' = fs w ∧ ticks w' = ticks w ∧ stdout w' = stdout w ∧ calls w' = calls w.

(** [runs P out files w rs w']: starting in [w], one invocation of
    [process_file] per path of [files], in order, each in the world its
    predecessor left, returns the results [rs] and ends in [w']. *)
Inductive runs (P : platform) (output_dir : string)
  : list string → world → list pyval → world → Prop :=
| runs_nil w : runs P output_dir [] w [] w
| runs_cons file_path rest w r w1 rs w2 :
    process_file P file_path output_dir w = (inr r, w1) →
    runs P output_dir rest w1 rs w2 →
    runs P output_dir (file_path :: rest) w (r :: rs) w2.

(** The three shapes of a batch summary, as [process_batch] builds them. *)
Definition batch_summary (acc : batch_acc) (total_time : Q) : pyval :=
  PDict [("success", PBool true);
         ("message", PStr ("Processed " +:+ pretty (processed_count acc)
                           +:+ " files, " +:+ pretty (failed_count acc)
                           +:+ " failed"));
         ("files_processed", PInt (processed_count acc));
         ("files_failed", PInt (failed_count acc));
         ("vectors_created", PInt (processed_count acc));
         ("languages_detected", PList (languages_detected acc));
         ("processing_time", PFloat total_time);
         ("files_per_second", files_per_second (processed_count acc) total_time)].

Definition empty_summary (processing_time : Q) : pyval :=
  PDict [("success", PBool false);
         ("message", PStr "No files in batch");
         ("files_processed", PInt 0);
         ("processing_time", PFloat processing_time)].

Definition error_summary (e : exn) (processing_time : Q) : pyval :=
  PDict [("success", PBool false);
         ("message", PStr ("Batch processing error: " +:+ exn_str e));
         ("files_processed", PInt 0);
         ("processing_time", PFloat processing_time)].

(** The [except] branch of [process_batch], from the world [w] in which the
    exception [e] arrived. *)
Definition batch_error_run (P : platform) (e : exn) (start_time : Q) (w : world)
  : (exn + pyval) * world :=
  (inr (error_summary e (clock P (ticks w) - start_time)),
   set_ticks S (set_log (λ ls, ls ++ [(ERROR, "Error processing batch: " +:+ exn_str e)]) w)).

(** The output directory is there or can be created, with the ancestors
    it lacks: [os.makedirs] returns without an exception. *)
Definition can_makedirs (P : platform) (output_dir : string) (w : world) : Prop :=
  (os_makedirs P output_dir w).1 = inr tt.

(** [q] is an initial part of [p]. *)
Definition is_prefix (q p : string) : Prop := ∃ rest, p = q +:+ rest.

(** The world in which the loop of [process_batch] starts, from the world
    [w0] that [os.makedirs] left: the line that announces the batch is in
    the log, unless the list is empty and there is no loop. *)
Definition batch_entry (job_id : string) (files : list string) (w0 : world) : world :=
  match files with
  | [] => w0
  | _ => set_log (λ ls, ls ++ [(INFO, "Processing batch of "
                                      +:+ pretty (Z.of_nat (length files))
                                      +:+ " files for job " +:+ job_id)]) w0
  end.

(** The manifest is a readable file that parses to [batch_data]. *)
Definition manifest_is (P : platform) (batch_file : string) (w : world)
    (batch_data : list (string * list string)) : Prop :=
  ∃ data, fs w !! batch_file = Some (File data)
          ∧ fault P OpOpenRead batch_file = None
          ∧ json_load P data = inr batch_data.

(** The number of results that succeeded ([ok = true]) or failed. *)
Fixpoint count_results (ok : bool) (rs : list pyval) : Z :=
  match rs with
  | [] => 0
  | r :: rs' => (if Bool.eqb (succeeded r) ok then 1 else 0) + count_results ok rs'
  end.

(** The language a per-file result reports. *)
Definition language_of (r : pyval) : exn + pyval := py_get r "language" (PStr "unknown").

(** Two files of the same name in two directories.  [sample_hash] depends
    on the length of a path alone, so both paths fall in one bucket. *)
Definition twin_fs : gmap string entry :=
  <["a/x.py" := File (list_byte_of_string "alpha")]>
  (<["b/x.py" := File (list_byte_of_string "beta")]>
  (<["out" := Dir]> ∅)).

Definition twin_world : world := World twin_fs 0 [] [] [].

(** A file system that holds the manifest and none of the files it lists. *)
Definition bare_fs : gmap string entry :=
  <["batch.json" := File (list_byte_of_string (manifest_text ["a.py"; "missing.rs"]))]> ∅.

Definition bare_world : world := World bare_fs 0 [] [] [].

(** [s] ends with [suffix]. *)
Definition ends_with (suffix s : string) : Prop := ∃ pre, s = pre +:+ suffix.

(** The record that [process_file] writes for [file_path]. *)
Definition artifact_of (P : platform) (file_path : string) (now : Q)
    (vector_result : pyval) : entry :=
  File (encode P (json_dumps P
    (PDict [("file", PStr file_path);
            ("language", PStr (detect_language P file_path));
            ("timestamp", PFloat now);
            ("vectorization", vector_result)]))).

(** A codec that never yields more characters than it reads bytes. *)
Definition nonexpanding (P : platform) : Prop :=
  ∀ bs : list byte, (length (decode P bs) ≤ length bs)%nat.

(** The mock configuration under a Latin-1 locale. *)
Definition latin1_platform : platform :=
  Platform false latin1_decode list_byte_of_string sample_tfidf sample_hash
    ticking_clock sample_json_load sample_json_dumps no_fault sample_unicode_lower.

(** * Properties *)

(** ** Running the monad *)

Lemma bind_inr {A B} (c : M A) (k : A → M B) w a w' :
  c w = (inr a, w') → bind c k w = k a w'.
Proof. intros H. unfold bind. by rewrite H. Qed.

Lemma bind_inl {A B} (c : M A) (k : A → M B) w e w' :
  c w = (inl e, w') → bind c k w = (inl e, w').
Proof. intros H. unfold bind. by rewrite H. Qed.

Lemma try_except_inr {A} (c : M A) h w a w' :
  c w = (inr a, w') → try_except c h w = (inr a, w').
Proof. intros H. unfold try_except. by rewrite H. Qed.

Lemma try_except_inl {A} (c : M A) h w e w' :
  c w = (inl e, w') → try_except c h w = h e w'.
Proof. intros H. unfold try_except. by rewrite H. Qed.

(** ** Paths *)

Lemma rfind_from_absent c s i : occurs c s = false → rfind_from c s i = -1.
Proof.
  revert i. induction s as [|a s IH]; intros i; simpl; [done|].
  intros [Ha Hs]%orb_false_iff. by rewrite (IH _ Hs), Ha.
Qed.

Lemma rfind_from_app_last c s1 s2 i :
  0 ≤ i → occurs c s2 = false →
  rfind_from c (s1 +:+ String c s2) i = i + Z.of_nat (String.length s1).
Proof.
  revert i. induction s1 as [|a s1 IH]; intros i Hi Hs2; simpl.
  - rewrite (rfind_from_absent _ _ _ Hs2). simpl. rewrite Ascii.eqb_refl. lia.
  - rewrite IH; [|lia|done].
    destruct (Z.leb_spec 0 (i + 1 + Z.of_nat (String.length s1))); lia.
Qed.

Lemma rfind_from_app_absent c s1 s2 i :
  occurs c s2 = false → rfind_from c (s1 +:+ s2) i = rfind_from c s1 i.
Proof.
  revert i. induction s1 as [|a s1 IH]; intros i Hs2; simpl.
  - by apply rfind_from_absent.
  - by rewrite IH.
Qed.

Lemma substring_app_skip s1 s2 m :
  substring (String.length s1) m (s1 +:+ s2) = substring 0 m s2.
Proof. induction s1 as [|a s1 IH]; simpl; [done|]. apply IH. Qed.

Lemma substring_app_prefix s1 s2 :
  substring 0 (String.length s1) (s1 +:+ s2) = s1.
Proof. induction s1 as [|a s1 IH]; simpl; [by destruct s2|]. by rewrite IH. Qed.

Lemma substring_whole s : substring 0 (String.length s) s = s.
Proof. induction s as [|a s IH]; simpl; [done|]. by rewrite IH. Qed.

Lemma length_app_string s1 s2 :
  String.length (s1 +:+ s2) = (String.length s1 + String.length s2)%nat.
Proof. induction s1 as [|a s1 IH]; simpl; [done|]. by rewrite IH. Qed.

Lemma string_app_assoc s1 s2 s3 : (s1 +:+ s2) +:+ s3 = s1 +:+ (s2 +:+ s3).
Proof.
  induction s1 as [|a s1 IH]; [done|].
  change (String a ((s1 +:+ s2) +:+ s3) = String a (s1 +:+ (s2 +:+ s3))).
  by rewrite IH.
Qed.

Lemma splitext_simple (dir : string) (c : ascii) (name e : string) :
  dir = "" ∨ (∃ d, dir = d +:+ "/") →
  c ≠ "."%char →
  occurs "/" (String c name) = false →
  occurs "." e = false →
  occurs "/" e = false →
  splitext ((dir +:+ String c name) +:+ String "." e)
    = (dir +:+ String c name, String "." e).
Proof.
  intros Hdir Hc Hname Hdot Hsep.
  set (stem := dir +:+ String c name).
  assert (Hdotidx : rfind "." (stem +:+ String "." e) = Z.of_nat (String.length stem)).
  { unfold rfind. rewrite rfind_from_app_last; [lia|lia|done]. }
  assert (Hsepidx : rfind "/" (stem +:+ String "." e) + 1 = Z.of_nat (String.length dir)).
  { unfold rfind. rewrite rfind_from_app_absent; [|by simpl; rewrite Hsep].
    unfold stem. rewrite rfind_from_app_absent; [|done].
    destruct Hdir as [->|[d ->]]; [done|].
    rewrite rfind_from_app_last; [|lia|done].
    rewrite length_app_string. simpl. lia. }
  assert (Hlen : String.length stem = (String.length dir + S (String.length name))%nat).
  { unfold stem. by rewrite length_app_string. }
  unfold splitext. cbv zeta.
  replace (rfind "/" (stem +:+ String "." e))
    with (Z.of_nat (String.length dir) - 1) by lia.
  rewrite Hdotidx.
  destruct (Z.ltb_spec (Z.of_nat (String.length dir) - 1) (Z.of_nat (String.length stem)));
    [|lia].
  replace (Z.to_nat (Z.of_nat (String.length stem) - (Z.of_nat (String.length dir) - 1 + 1)))
    with (S (String.length name)) by lia.
  replace (Z.of_nat (String.length dir) - 1 + 1) with (Z.of_nat (String.length dir)) by lia.
  cbn [splitext_scan].
  assert (Hchar : slice (stem +:+ String "." e) (Z.of_nat (String.length dir))
                    (Z.of_nat (String.length dir) + 1) = String c "").
  { unfold slice, stem.
    replace (Z.to_nat (Z.of_nat (String.length dir) + 1 - Z.of_nat (String.length dir)))
      with 1%nat by lia.
    rewrite Nat2Z.id. rewrite string_app_assoc. rewrite substring_app_skip.
    simpl. by destruct (name +:+ String "." e). }
  rewrite Hchar.
  assert (Hneq : String.eqb (String c "") "." = false).
  { apply String.eqb_neq. congruence. }
  rewrite Hneq. simpl negb. cbv iota.
  unfold slice, slice_from. rewrite Z.sub_0_r, Nat2Z.id. simpl Z.to_nat.
  rewrite substring_app_prefix, substring_app_skip.
  rewrite length_app_string.
  replace (String.length stem + String.length (String "." e) - String.length stem)%nat
    with (String.length (String "." e)) by lia.
  by rewrite substring_whole.
Qed.

(** ** detect_language *)

Lemma language_map_keys_NoDup : NoDup (map fst language_map).
Proof. apply (bool_decide_unpack _). by vm_compute. Qed.

Lemma dict_lookup_In {V} (d : list (string * V)) k v :
  NoDup (map fst d) → In (k, v) d → dict_lookup d k = Some v.
Proof.
  induction d as [|[k' v'] d IH]; simpl; [done|].
  intros Hnd Hin. apply NoDup_cons in Hnd as [Hk' Hnd].
  destruct Hin as [[= -> ->]|Hin].
  - by rewrite String.eqb_refl.
  - destruct (String.eqb_spec k' k) as [->|_]; [|by apply IH].
    exfalso. apply Hk'. apply list_elem_of_In, in_map_iff. by exists (k, v).
Qed.

Lemma dict_lookup_not_In {V} (d : list (string * V)) k :
  ¬ In k (map fst d) → dict_lookup d k = None.
Proof.
  induction d as [|[k' v'] d IH]; simpl; [done|].
  intros Hnin. destruct (String.eqb_spec k' k) as [->|_]; [tauto|].
  apply IH. tauto.
Qed.

(** C4. [detect_language] returns the label that the table maps the
    lower-cased extension of the path to, and ["unknown"] when the table has
    no such extension. *)
Theorem detect_language_table (P : platform) (file_path ext : string) :
  ext = lower P (splitext file_path).2 →
  (∀ label, In (ext, label) language_map → detect_language P file_path = label)
  ∧ (¬ In ext (map fst language_map) → detect_language P file_path = "unknown").
Proof.
  intros ->. unfold detect_language, dict_get. split.
  - intros label Hin.
    by rewrite (dict_lookup_In _ _ _ language_map_keys_NoDup Hin).
  - intros Hnin. by rewrite (dict_lookup_not_In _ _ Hnin).
Qed.

Lemma detect_language_table_witness :
  (".java" = lower mock_platform (splitext "src/Main.JAVA").2
   ∧ In (".java", "java") language_map
   ∧ detect_language mock_platform "src/Main.JAVA" = "java")
  ∧ (".txt" = lower mock_platform (splitext "notes.TXT").2
     ∧ ¬ In ".txt" (map fst language_map)
     ∧ detect_language mock_platform "notes.TXT" = "unknown").
Proof.
  assert (Hin : In (".java", "java") language_map) by (simpl; tauto).
  assert (Hnin : ¬ In ".txt" (map fst language_map))
    by (simpl; intros H; repeat (destruct H as [H|H]; [discriminate H|]); exact H).
  split; (split; [reflexivity|split; [assumption|]]).
  - exact (proj1 (detect_language_table mock_platform "src/Main.JAVA" ".java" eq_refl)
             "java" Hin).
  - exact (proj2 (detect_language_table mock_platform "notes.TXT" ".txt" eq_refl) Hnin).
Defined.

(** X1. A file name that does not start with a dot, followed by an
    extension without further dots: the extension decides, whatever its
    case and whatever the directory. *)
Lemma detect_language_extension (P : platform) (dir : string) (c : ascii)
    (name e label : string) :
  dir = "" ∨ (∃ d, dir = d +:+ "/") →
  c ≠ "."%char →
  occurs "/" (String c name) = false →
  occurs "." e = false →
  occurs "/" e = false →
  (In (lower P (String "." e), label) language_map →
     detect_language P ((dir +:+ String c name) +:+ String "." e) = label)
  ∧ (¬ In (lower P (String "." e)) (map fst language_map) →
     detect_language P ((dir +:+ String c name) +:+ String "." e) = "unknown").
Proof.
  intros Hdir Hc Hname Hdot Hsep.
  unfold detect_language, dict_get.
  rewrite (splitext_simple dir c name e Hdir Hc Hname Hdot Hsep).
  cbn [snd]. split.
  - intros Hin. by rewrite (dict_lookup_In _ _ _ language_map_keys_NoDup Hin).
  - intros Hnin. by rewrite (dict_lookup_not_In _ _ Hnin).
Qed.

(** Every entry of the table is reached from a path with that extension,
    whatever the case of the extension's letters. *)
Example detect_language_entries :
  Forall (λ e, detect_language mock_platform ("src/pkg.d/mod" +:+ e.1) = e.2) language_map.
Proof. repeat constructor. Qed.

Example detect_language_upper_case :
  detect_language mock_platform "A.PY" = "python" ∧ detect_language mock_platform "x/y.Json" = "json"
  ∧ detect_language mock_platform "x.tar.GZ" = "unknown" ∧ detect_language mock_platform "Makefile" = "unknown"
  ∧ detect_language mock_platform ".py" = "unknown" ∧ detect_language mock_platform "a.py/readme" = "unknown".
Proof. by vm_compute. Qed.

(** Outside ASCII the lower case comes from the Unicode database: the
    lower case of the Kelvin sign is the letter k, so that the extension
    [.Kt] written with a Kelvin sign is the key [.kt] of the table. *)
Example detect_language_kelvin_sign :
  detect_language mock_platform
    (String "x" (String "." (String "226" (String "132" (String "170" "t")))))
  = "kotlin".
Proof. by vm_compute. Qed.

(** ** read_file_content *)

Section ReadFileContent.
Context (P : platform).

Lemma read_file_content_file file_path max_size w data :
  fs w !! file_path = Some (File data) →
  fault P OpOpenRead file_path = None →
  read_file_content P file_path max_size w =
    if max_size <? Z.of_nat (length data)
    then (inr (text_read (text_of P data) (Some max_size)),
          set_log (λ ls, ls ++ [(WARNING,
            "File too large, truncating: " +:+ file_path +:+ " ("
            +:+ pretty (Z.of_nat (length data)) +:+ " bytes)")]) w)
    else (inr (text_of P data), w).
Proof.
  intros Hfile Hfault.
  unfold read_file_content, try_except, bind, os_path_getsize. rewrite Hfile.
  destruct (max_size <? Z.of_nat (length data)); simpl;
    unfold open_read_text; simpl; by rewrite Hfault, Hfile.
Qed.

(** No exception leaves [read_file_content], and it only adds log lines. *)
Lemma read_file_content_total file_path max_size w :
  ∃ content w',
    read_file_content P file_path max_size w = (inr content, w') ∧ same_but_log w w'.
Proof.
  unfold read_file_content, try_except, bind, os_path_getsize.
  destruct (fs w !! file_path) as [[data|]|] eqn:Hp; simpl.
  - destruct (max_size <? Z.of_nat (length data)); simpl;
      unfold open_read_text; simpl; rewrite ?Hp;
      destruct (fault P OpOpenRead file_path); simpl;
      eexists _, _; (split; [reflexivity|by repeat split]).
  - destruct (max_size <? 4096); simpl;
      unfold open_read_text; simpl; rewrite ?Hp;
      destruct (fault P OpOpenRead file_path); simpl;
      eexists _, _; (split; [reflexivity|by repeat split]).
  - eexists _, _; (split; [reflexivity|by repeat split]).
Qed.

(** A path that cannot be read yields the empty text. *)
Lemma read_file_content_unreadable file_path max_size w :
  fs w !! file_path = None ∨ fs w !! file_path = Some Dir
  ∨ is_Some (fault P OpOpenRead file_path) →
  (read_file_content P file_path max_size w).1 = inr [].
Proof.
  unfold read_file_content, try_except, bind, os_path_getsize.
  intros [Hp|[Hp|[e He]]].
  - by rewrite Hp.
  - rewrite Hp. destruct (max_size <? 4096); simpl;
      unfold open_read_text; simpl; rewrite ?Hp;
      by destruct (fault P OpOpenRead file_path).
  - destruct (fs w !! file_path) as [[data|]|] eqn:Hp; simpl; [| |done].
    + destruct (max_size <? Z.of_nat (length data)); simpl;
        unfold open_read_text; simpl; by rewrite He.
    + destruct (max_size <? 4096); simpl;
        unfold open_read_text; simpl; by rewrite He.
Qed.
End ReadFileContent.

Lemma translate_newlines_no_cr (t : text) :
  13%N ∉ t → translate_newlines t = t.
Proof.
  induction t as [|c t IH]; [done|]. intros Hc.
  apply not_elem_of_cons in Hc as [Hc Ht].
  change (translate_newlines (c :: t)) with
    (match c with
     | 13%N => match t with
               | 10%N :: t'' => 10%N :: translate_newlines t''
               | _ => 10%N :: translate_newlines t
               end
     | _ => c :: translate_newlines t
     end).
  rewrite (IH Ht).
  destruct c as [|p]; [done|].
  repeat (destruct p as [p|p|]; try done).
Qed.




(** X6. Where one byte is one character (Latin-1) and the file has no
    carriage return, the first [max_size] characters are the first
    [max_size] bytes: a larger file is cut to exactly that many bytes. *)
Lemma read_file_content_single_byte (P : platform) (file_path : string) (max_size : Z)
    (w : world) (data : list byte) :
  fs w !! file_path = Some (File data) →
  fault P OpOpenRead file_path = None →
  decode P = latin1_decode →
  x0d ∉ data →
  0 ≤ max_size < Z.of_nat (length data) →
  (read_file_content P file_path max_size w).1
    = inr (text_of P (firstn (Z.to_nat max_size) data))
  ∧ length (firstn (Z.to_nat max_size) data) = Z.to_nat max_size.
Proof.
  intros Hfile Hfault Hdec Hcr [Hmax Hlt].
  rewrite (read_file_content_file P _ max_size _ _ Hfile Hfault).
  rewrite (proj2 (Z.ltb_lt _ _) Hlt). simpl.
  destruct (Z.ltb_spec max_size 0) as [?|_]; [lia|].
  unfold text_of. rewrite Hdec. unfold latin1_decode.
  assert (Hno : ∀ l : list byte, x0d ∉ l → 13%N ∉ map Byte.to_N l).
  { intros l Hl Hin. apply Hl. apply list_elem_of_In in Hin.
    apply in_map_iff in Hin as (b & Hb & Hin). apply list_elem_of_In.
    replace x0d with b; [done|]. by destruct b. }
  rewrite !translate_newlines_no_cr.
  - split; [by rewrite firstn_map|]. rewrite length_take. lia.
  - apply Hno. intros Hin. apply Hcr.
    apply elem_of_take in Hin as (i & Hi & _). by eapply list_elem_of_lookup_2.
  - by apply Hno.
Qed.

(** X5. A negative limit does not limit: [f.read] with a negative size
    reads to the end, so the whole text of a readable file comes back. *)
Lemma read_file_content_negative_limit (P : platform) (file_path : string)
    (max_size : Z) (w : world) (data : list byte) :
  fs w !! file_path = Some (File data) →
  fault P OpOpenRead file_path = None →
  max_size < 0 →
  (read_file_content P file_path max_size w).1 = inr (text_of P data).
Proof.
  intros Hfile Hfault Hneg.
  rewrite (read_file_content_file P _ max_size _ _ Hfile Hfault).
  destruct (Z.ltb_spec max_size (Z.of_nat (length data))) as [_|?]; [|lia].
  simpl. by rewrite (proj2 (Z.ltb_lt _ _) Hneg).
Qed.

(** ** vectorize_content *)

Section VectorizeContent.
Context (P : platform).

(** No exception leaves [vectorize_content]; its result carries a Boolean
    ["success"]. *)
Lemma vectorize_content_total content file_path w :
  ∃ vector_result w' ok,
    vectorize_content P content file_path w = (inr vector_result, w')
    ∧ same_but_log w w'
    ∧ dict_item vector_result "success" = inr (PBool ok).
Proof.
  unfold vectorize_content.
  destruct (PYTHON_DEPS_AVAILABLE P); simpl.
  - unfold try_except, bind, lift. destruct (tfidf P content) as [e|v]; simpl.
    + eexists _, _, false. by repeat split.
    + eexists _, _, true. by repeat split.
  - eexists _, _, true. by repeat split.
Qed.

(** With the library present, a failure of the library is the only way
    to a failed outcome, which then carries the library's message. *)
Lemma vectorize_content_failure content file_path w vector_result w' :
  vectorize_content P content file_path w = (inr vector_result, w') →
  succeeded vector_result = false →
  ∃ e, PYTHON_DEPS_AVAILABLE P = true ∧ tfidf P content = inl e
       ∧ vector_result = PDict [("success", PBool false); ("error", PStr (exn_str e))].
Proof.
  unfold vectorize_content.
  destruct (PYTHON_DEPS_AVAILABLE P); simpl.
  - unfold try_except, bind, lift. destruct (tfidf P content) as [e|v]; simpl.
    + intros [= <- <-] _. by exists e.
    + by intros [= <- <-].
  - by intros [= <- <-].
Qed.
End VectorizeContent.

(** C5. Without the scientific libraries, [vectorize_content] returns the fixed
    record [success = True, vector_size = 100, vector_type = "mock"] for every
    content and path, and the record has no ["vector"] key. *)
Theorem vectorize_content_mock (P : platform) (content : text) (file_path : string)
    (w : world) :
  PYTHON_DEPS_AVAILABLE P = false →
  ∃ d, vectorize_content P content file_path w = (inr (PDict d), w)
       ∧ d = [("success", PBool true); ("vector_size", PInt 100);
              ("vector_type", PStr "mock")]
       ∧ dict_lookup d "vector" = None.
Proof.
  intros Hdeps. unfold vectorize_content. rewrite Hdeps. simpl.
  eexists. by repeat split.
Qed.

Lemma vectorize_content_mock_witness :
  PYTHON_DEPS_AVAILABLE mock_platform = false
  ∧ ∃ d, vectorize_content mock_platform [105; 109; 112]%N "a.py" sample_world
           = (inr (PDict d), sample_world)
         ∧ d = [("success", PBool true); ("vector_size", PInt 100);
                ("vector_type", PStr "mock")]
         ∧ dict_lookup d "vector" = None.
Proof.
  split; [reflexivity|].
  exact (vectorize_content_mock mock_platform [105; 109; 112]%N "a.py" sample_world eq_refl).
Defined.

(** ** process_file *)

Section ProcessFile.
Context (P : platform).

Lemma process_file_missing file_path output_dir w :
  fs w !! file_path = None →
  process_file P file_path output_dir w =
    (inr (PDict [("success", PBool false);
                 ("error", PStr ("File not found: " +:+ file_path))]),
     set_calls (λ cs, cs ++ [file_path]) w).
Proof.
  intros Hp. unfold process_file, bind, enter_process_file, os_path_exists. simpl.
  rewrite Hp. rewrite bool_decide_eq_false_2; [done|]. by intros [? ?].
Qed.

Lemma process_file_empty file_path output_dir w w1 :
  is_Some (fs w !! file_path) →
  read_file_content P file_path (1024 * 1024) (set_calls (λ cs, cs ++ [file_path]) w)
    = (inr [], w1) →
  process_file P file_path output_dir w =
    (inr (PDict [("success", PBool false);
                 ("error", PStr "Empty or unreadable file")]), w1).
Proof.
  intros Hp Hread. unfold process_file, bind, enter_process_file, os_path_exists. simpl.
  rewrite bool_decide_eq_true_2; [|done]. simpl.
  unfold try_except, bind. by rewrite Hread.
Qed.

Lemma process_file_vectorize_failure file_path output_dir w content w1
    vector_result w2 :
  is_Some (fs w !! file_path) →
  read_file_content P file_path (1024 * 1024) (set_calls (λ cs, cs ++ [file_path]) w)
    = (inr content, w1) →
  content ≠ [] →
  vectorize_content P content file_path w1 = (inr vector_result, w2) →
  succeeded vector_result = false →
  process_file P file_path output_dir w = (inr vector_result, w2).
Proof.
  intros Hp Hread Hne Hvec Hfail.
  destruct (vectorize_content_failure P _ _ _ _ _ Hvec Hfail) as (e & _ & _ & ->).
  unfold process_file, bind, enter_process_file, os_path_exists. simpl.
  rewrite bool_decide_eq_true_2; [|done]. simpl.
  unfold try_except, bind. rewrite Hread.
  destruct content as [|c content]; [done|]. by rewrite Hvec.
Qed.

(** The path on which every step succeeds: the artifact is written under
    the name made of the hash bucket and the base name, and the result
    reports the language and that name. *)
Lemma process_file_success file_path output_dir w content w1 vector_result w2 :
  is_Some (fs w !! file_path) →
  read_file_content P file_path (1024 * 1024) (set_calls (λ cs, cs ++ [file_path]) w)
    = (inr content, w1) →
  content ≠ [] →
  vectorize_content P content file_path w1 = (inr vector_result, w2) →
  succeeded vector_result = true →
  fs w2 !! output_filename_of P file_path output_dir ≠ Some Dir →
  fault P OpOpenWrite (output_filename_of P file_path output_dir) = None →
  fault P OpWrite (output_filename_of P file_path output_dir) = None →
  process_file P file_path output_dir w =
    (inr (PDict [("success", PBool true);
                 ("language", PStr (detect_language P file_path));
                 ("output_file", PStr (output_filename_of P file_path output_dir))]),
     set_fs (insert (output_filename_of P file_path output_dir)
               (File (encode P (json_dumps P
                  (PDict [("file", PStr file_path);
                          ("language", PStr (detect_language P file_path));
                          ("timestamp", PFloat (clock P (ticks w2)));
                          ("vectorization", vector_result)])))))
       (set_ticks S w2)).
Proof.
  intros Hsome Hread Hne Hvec Hsucc Hdir Hopen Hwrite.
  unfold process_file, bind, enter_process_file, os_path_exists. simpl.
  rewrite bool_decide_eq_true_2; [|done]. simpl.
  unfold try_except, bind. rewrite Hread.
  destruct content as [|c content]; [done|]. rewrite Hvec.
  unfold succeeded in Hsucc.
  destruct (dict_item vector_result "success") as [e|ok]; [done|]. simpl.
  rewrite Hsucc. simpl. unfold open_json_dump. simpl.
  fold (output_filename_of P file_path output_dir).
  rewrite Hopen, Hwrite.
  by destruct (fs w2 !! output_filename_of P file_path output_dir) as [[?|]|].
Qed.

(** [process_file] always returns: every exception is caught.  The result
    carries a Boolean ["success"]; a successful one reports the detected
    language.  Exactly one call is recorded and nothing is printed. *)
Lemma process_file_total file_path output_dir w :
  ∃ r w' ok,
    process_file P file_path output_dir w = (inr r, w')
    ∧ dict_item r "success" = inr (PBool ok)
    ∧ (ok = true → language_of r = inr (PStr (detect_language P file_path)))
    ∧ calls w' = calls w ++ [file_path]
    ∧ stdout w' = stdout w
    ∧ (ticks w ≤ ticks w')%nat.
Proof.
  destruct (fs w !! file_path) as [en|] eqn:Hp.
  2:{ rewrite (process_file_missing _ _ _ Hp). eexists _, _, false. by repeat split. }
  assert (Hsome : is_Some (fs w !! file_path)) by (by rewrite Hp).
  destruct (read_file_content_total P file_path (1024 * 1024)
              (set_calls (λ cs, cs ++ [file_path]) w))
    as (content & w1 & Hread & _ & Htk1 & Hout1 & Hcalls1).
  simpl in Hcalls1, Hout1, Htk1.
  destruct content as [|c content].
  { rewrite (process_file_empty _ _ _ _ Hsome Hread). eexists _, _, false.
    repeat split; [done|by rewrite Hcalls1|by rewrite Hout1|by rewrite Htk1]. }
  destruct (vectorize_content_total P (c :: content) file_path w1)
    as (vr & w2 & ok & Hvec & (_ & Htk2 & Hout2 & Hcalls2) & Hok).
  destruct ok.
  2:{ rewrite (process_file_vectorize_failure _ _ _ _ _ _ _ Hsome Hread
                 ltac:(discriminate) Hvec).
      - eexists _, _, false.
        repeat split; [done|done|by rewrite Hcalls2, Hcalls1|by rewrite Hout2, Hout1
                      |by rewrite Htk2, Htk1].
      - unfold succeeded. by rewrite Hok. }
  unfold process_file, bind, enter_process_file, os_path_exists. simpl.
  rewrite bool_decide_eq_true_2; [|done]. simpl.
  unfold try_except, bind. rewrite Hread, Hvec. unfold lift at 1. rewrite Hok. simpl.
  unfold open_json_dump, logger. simpl.
  set (fname := path_join output_dir _).
  destruct (fs w2 !! fname) as [[?|]|];
    [destruct (fault P OpOpenWrite fname); [|destruct (fault P OpWrite fname)]
    | |destruct (fault P OpOpenWrite fname); [|destruct (fault P OpWrite fname)]];
    simpl;
    (eexists _, _, _; split; [reflexivity|]; simpl;
     repeat split; try done; rewrite ?Hcalls2, ?Hcalls1, ?Hout2, ?Hout1, ?Htk2, ?Htk1;
     try done; lia).
Qed.
End ProcessFile.

(** C8. [process_file] returns [success = False, error = "File not found: <path>"]
    for a path that does not exist, [success = False, error = "Empty or
    unreadable file"] when the content read is empty, and the vectorizer's
    failed outcome itself when vectorization fails; it returns normally in
    every case: no exception reaches the caller. *)
Theorem process_file_failures (P : platform) (file_path output_dir : string) (w : world) :
  (fs w !! file_path = None →
     process_file P file_path output_dir w =
       (inr (PDict [("success", PBool false);
                    ("error", PStr ("File not found: " +:+ file_path))]),
        set_calls (λ cs, cs ++ [file_path]) w))
  ∧ (∀ w1,
       is_Some (fs w !! file_path) →
       read_file_content P file_path (1024 * 1024)
         (set_calls (λ cs, cs ++ [file_path]) w) = (inr [], w1) →
       process_file P file_path output_dir w =
         (inr (PDict [("success", PBool false);
                      ("error", PStr "Empty or unreadable file")]), w1))
  ∧ (∀ content w1 vector_result w2,
       is_Some (fs w !! file_path) →
       read_file_content P file_path (1024 * 1024)
         (set_calls (λ cs, cs ++ [file_path]) w) = (inr content, w1) →
       content ≠ [] →
       vectorize_content P content file_path w1 = (inr vector_result, w2) →
       succeeded vector_result = false →
       process_file P file_path output_dir w = (inr vector_result, w2))
  ∧ (∃ r w', process_file P file_path output_dir w = (inr r, w')).
Proof.
  split; [apply process_file_missing|].
  split; [intros w1; apply process_file_empty|].
  split; [intros content w1 vr w2; apply process_file_vectorize_failure|].
  destruct (process_file_total P file_path output_dir w) as (r & w' & _ & Hrun & _).
  by exists r, w'.
Qed.

Lemma process_file_failures_witness :
  (fs sample_world !! "missing.rs" = None
   ∧ (process_file real_platform "missing.rs" "out" sample_world).1
       = inr (PDict [("success", PBool false);
                     ("error", PStr "File not found: missing.rs")]))
  ∧ (is_Some (fs sample_world !! "e.txt")
     ∧ (read_file_content real_platform "e.txt" (1024 * 1024)
          (set_calls (λ cs, cs ++ ["e.txt"]) sample_world)).1 = inr []
     ∧ (process_file real_platform "e.txt" "out" sample_world).1
         = inr (PDict [("success", PBool false);
                       ("error", PStr "Empty or unreadable file")]))
  ∧ (is_Some (fs sample_world !! "x.md")
     ∧ (read_file_content real_platform "x.md" (1024 * 1024)
          (set_calls (λ cs, cs ++ ["x.md"]) sample_world)).1 = inr [97%N]
     ∧ (vectorize_content real_platform [97%N] "x.md"
          (set_calls (λ cs, cs ++ ["x.md"]) sample_world)).1
         = inr (PDict [("success", PBool false);
                       ("error", PStr "empty vocabulary; perhaps the documents only contain stop words")])
     ∧ (process_file real_platform "x.md" "out" sample_world).1
         = inr (PDict [("success", PBool false);
                       ("error", PStr "empty vocabulary; perhaps the documents only contain stop words")])).
Proof.
  pose proof (process_file_failures real_platform "missing.rs" "out" sample_world)
    as (Hmissing & _).
  pose proof (process_file_failures real_platform "e.txt" "out" sample_world)
    as (_ & Hempty & _).
  pose proof (process_file_failures real_platform "x.md" "out" sample_world)
    as (_ & _ & Hvec & _).
  assert (H1 : fs sample_world !! "missing.rs" = None) by (by vm_compute).
  assert (H2 : is_Some (fs sample_world !! "e.txt")) by (vm_compute; by eexists).
  assert (H3 : is_Some (fs sample_world !! "x.md")) by (vm_compute; by eexists).
  split; [|split].
  - split; [exact H1|]. by rewrite (Hmissing H1).
  - split; [exact H2|]. split; [by vm_compute|].
    by rewrite (Hempty (set_calls (λ cs, cs ++ ["e.txt"]) sample_world) H2 eq_refl).
  - split; [exact H3|]. split; [by vm_compute|]. split; [by vm_compute|].
    by rewrite (Hvec [97%N] (set_calls (λ cs, cs ++ ["x.md"]) sample_world) _
                  (vectorize_content real_platform [97%N] "x.md"
                     (set_calls (λ cs, cs ++ ["x.md"]) sample_world)).2
                  H3 eq_refl ltac:(discriminate) eq_refl eq_refl).
Defined.

(** The artifact is written only after every earlier step has succeeded: a
    run that changes the file system found the file, read a content that is
    not empty and got a successful outcome from the vectorizer. *)
Lemma process_file_write_only_after_success (P : platform) (file_path output_dir : string)
    (w : world) :
  fs (process_file P file_path output_dir w).2 ≠ fs w →
  ∃ content w1 vector_result w2,
    is_Some (fs w !! file_path)
    ∧ read_file_content P file_path (1024 * 1024)
        (set_calls (λ cs, cs ++ [file_path]) w) = (inr content, w1)
    ∧ content ≠ []
    ∧ vectorize_content P content file_path w1 = (inr vector_result, w2)
    ∧ succeeded vector_result = true.
Proof.
  intros Hchanged.
  destruct (fs w !! file_path) as [en|] eqn:Hp.
  2:{ by rewrite (process_file_missing _ _ _ _ Hp) in Hchanged. }
  assert (Hsome : is_Some (fs w !! file_path)) by (by rewrite Hp).
  destruct (read_file_content_total P file_path (1024 * 1024)
              (set_calls (λ cs, cs ++ [file_path]) w))
    as (content & w1 & Hread & Hfs1 & _).
  destruct content as [|c content].
  { rewrite (process_file_empty _ _ _ _ _ Hsome Hread) in Hchanged. simpl in Hchanged.
    by rewrite Hfs1 in Hchanged. }
  destruct (vectorize_content_total P (c :: content) file_path w1)
    as (vr & w2 & ok & Hvec & (Hfs2 & _) & Hok).
  destruct (succeeded vr) eqn:Hsucc.
  - exists (c :: content), w1, vr, w2. by repeat split.
  - rewrite (process_file_vectorize_failure _ _ _ _ _ _ _ _ Hsome Hread
               ltac:(discriminate) Hvec Hsucc) in Hchanged.
    simpl in Hchanged. by rewrite Hfs2, Hfs1 in Hchanged.
Qed.

(** C10 (as amended). When [process_file] fails because the file is
    missing, because the content read is empty or because vectorization
    failed, the file system after the call is the file system before it: no
    artifact is written.  The write is attempted only on the path on which
    all these steps succeeded: a call that changes the file system found
    the file, read a content that is not empty and got a successful outcome
    from the vectorizer. *)
Theorem process_file_failure_writes_nothing (P : platform) (file_path output_dir : string)
    (w : world) :
  (fs w !! file_path = None →
     ∃ r w', process_file P file_path output_dir w = (inr r, w')
             ∧ succeeded r = false ∧ fs w' = fs w)
  ∧ (∀ w1,
       is_Some (fs w !! file_path) →
       read_file_content P file_path (1024 * 1024)
         (set_calls (λ cs, cs ++ [file_path]) w) = (inr [], w1) →
       ∃ r w', process_file P file_path output_dir w = (inr r, w')
               ∧ succeeded r = false ∧ fs w' = fs w)
  ∧ (∀ content w1 vector_result w2,
       is_Some (fs w !! file_path) →
       read_file_content P file_path (1024 * 1024)
         (set_calls (λ cs, cs ++ [file_path]) w) = (inr content, w1) →
       content ≠ [] →
       vectorize_content P content file_path w1 = (inr vector_result, w2) →
       succeeded vector_result = false →
       ∃ r w', process_file P file_path output_dir w = (inr r, w')
               ∧ succeeded r = false ∧ fs w' = fs w)
  ∧ (fs (process_file P file_path output_dir w).2 ≠ fs w →
     ∃ content w1 vector_result w2,
       is_Some (fs w !! file_path)
       ∧ read_file_content P file_path (1024 * 1024)
           (set_calls (λ cs, cs ++ [file_path]) w) = (inr content, w1)
       ∧ content ≠ []
       ∧ vectorize_content P content file_path w1 = (inr vector_result, w2)
       ∧ succeeded vector_result = true).
Proof.
  split; [|split; [|split]].
  - intros Hp. rewrite (process_file_missing _ _ _ _ Hp). eexists _, _. by repeat split.
  - intros w1 Hsome Hread. rewrite (process_file_empty _ _ _ _ _ Hsome Hread).
    destruct (read_file_content_total P file_path (1024 * 1024)
                (set_calls (λ cs, cs ++ [file_path]) w))
      as (content & w1' & Hread' & Hfs1 & _).
    rewrite Hread in Hread'. injection Hread' as <- <-.
    eexists _, _. by repeat split.
  - intros content w1 vr w2 Hsome Hread Hne Hvec Hfail.
    rewrite (process_file_vectorize_failure _ _ _ _ _ _ _ _ Hsome Hread Hne Hvec Hfail).
    destruct (read_file_content_total P file_path (1024 * 1024)
                (set_calls (λ cs, cs ++ [file_path]) w))
      as (content' & w1' & Hread' & Hfs1 & _).
    rewrite Hread in Hread'. injection Hread' as <- <-.
    destruct (vectorize_content_total P content file_path w1)
      as (vr' & w2' & ok & Hvec' & (Hfs2 & _) & _).
    rewrite Hvec in Hvec'. injection Hvec' as <- <-.
    eexists _, _. repeat split; [done|]. by rewrite Hfs2, Hfs1.
  - apply process_file_write_only_after_success.
Qed.

Lemma process_file_failure_writes_nothing_witness :
  (fs sample_world !! "missing.rs" = None
   ∧ ∃ r w', process_file real_platform "missing.rs" "out" sample_world = (inr r, w')
             ∧ succeeded r = false ∧ fs w' = fs sample_world)
  ∧ (is_Some (fs sample_world !! "e.txt")
     ∧ (read_file_content real_platform "e.txt" (1024 * 1024)
          (set_calls (λ cs, cs ++ ["e.txt"]) sample_world)).1 = inr []
     ∧ ∃ r w', process_file real_platform "e.txt" "out" sample_world = (inr r, w')
               ∧ succeeded r = false ∧ fs w' = fs sample_world)
  ∧ (is_Some (fs sample_world !! "x.md")
     ∧ (read_file_content real_platform "x.md" (1024 * 1024)
          (set_calls (λ cs, cs ++ ["x.md"]) sample_world)).1 = inr [97%N]
     ∧ succeeded (PDict [("success", PBool false);
                         ("error", PStr "empty vocabulary; perhaps the documents only contain stop words")])
         = false
     ∧ ∃ r w', process_file real_platform "x.md" "out" sample_world = (inr r, w')
               ∧ succeeded r = false ∧ fs w' = fs sample_world)
  ∧ (fs (process_file real_platform "a.py" "out" sample_world).2 ≠ fs sample_world
     ∧ ∃ content w1 vector_result w2,
         is_Some (fs sample_world !! "a.py")
         ∧ read_file_content real_platform "a.py" (1024 * 1024)
             (set_calls (λ cs, cs ++ ["a.py"]) sample_world) = (inr content, w1)
         ∧ content ≠ []
         ∧ vectorize_content real_platform content "a.py" w1 = (inr vector_result, w2)
         ∧ succeeded vector_result = true).
Proof.
  pose proof (process_file_failure_writes_nothing real_platform "missing.rs" "out"
                sample_world) as (Hmissing & _).
  pose proof (process_file_failure_writes_nothing real_platform "e.txt" "out"
                sample_world) as (_ & Hempty & _).
  pose proof (process_file_failure_writes_nothing real_platform "x.md" "out"
                sample_world) as (_ & _ & Hvec & _).
  pose proof (process_file_failure_writes_nothing real_platform "a.py" "out"
                sample_world) as (_ & _ & _ & Hwrite).
  assert (H1 : fs sample_world !! "missing.rs" = None) by (by vm_compute).
  assert (H2 : is_Some (fs sample_world !! "e.txt")) by (vm_compute; by eexists).
  assert (H3 : is_Some (fs sample_world !! "x.md")) by (vm_compute; by eexists).
  assert (H4 : fs (process_file real_platform "a.py" "out" sample_world).2
               ≠ fs sample_world).
  { intros Heq. apply (f_equal (λ m, m !! "out/4021_a.py.vec.json")) in Heq.
    vm_compute in Heq. discriminate Heq. }
  split; [|split; [|split]].
  - split; [exact H1|]. exact (Hmissing H1).
  - split; [exact H2|]. split; [by vm_compute|].
    exact (Hempty (set_calls (λ cs, cs ++ ["e.txt"]) sample_world) H2 eq_refl).
  - split; [exact H3|]. split; [by vm_compute|]. split; [reflexivity|].
    exact (Hvec [97%N] (set_calls (λ cs, cs ++ ["x.md"]) sample_world) _
             (vectorize_content real_platform [97%N] "x.md"
                (set_calls (λ cs, cs ++ ["x.md"]) sample_world)).2
             H3 eq_refl ltac:(discriminate) eq_refl eq_refl).
  - split; [exact H4|]. exact (Hwrite H4).
Defined.

(** C10 as stated fails.  There is a fourth way to fail, outside the three
    the claim names, and it comes after the artifact has been opened: the
    write itself raises.  With a disk that is full [open] creates the
    artifact of [a.py], [json.dump] raises, the exception is caught and the
    result is a failure; the output directory holds a new, empty file. *)
Lemma process_file_failure_counterexample :
  (process_file (sample_platform false ticking_clock disk_full) "a.py" "out"
     sample_world).1
  = inr (PDict [("success", PBool false);
                ("error", PStr "[Errno 28] No space left on device")])
  ∧ succeeded (PDict [("success", PBool false);
                      ("error", PStr "[Errno 28] No space left on device")]) = false
  ∧ fs sample_world !! "out/4021_a.py.vec.json" = None
  ∧ fs (process_file (sample_platform false ticking_clock disk_full) "a.py" "out"
          sample_world).2 !! "out/4021_a.py.vec.json" = Some (File [])
  ∧ fs (process_file (sample_platform false ticking_clock disk_full) "a.py" "out"
          sample_world).2 ≠ fs sample_world.
Proof.
  split; [by vm_compute|]. split; [by vm_compute|]. split; [by vm_compute|].
  split; [by vm_compute|].
  intros Heq. apply (f_equal (λ m, m !! "out/4021_a.py.vec.json")) in Heq.
  vm_compute in Heq. discriminate Heq.
Qed.

(** The same run, with the whole file system it leaves. *)
Example process_file_disk_full :
  let run := process_file (sample_platform false ticking_clock disk_full) "a.py" "out"
               sample_world in
  run.1 = inr (PDict [("success", PBool false);
                      ("error", PStr "[Errno 28] No space left on device")])
  ∧ fs run.2 = <["out/4021_a.py.vec.json" := File []]> (fs sample_world).
Proof. by vm_compute. Qed.

(** ** process_batch: the loop *)

Lemma count_results_length (rs : list pyval) :
  count_results true rs + count_results false rs = Z.of_nat (length rs).
Proof.
  induction rs as [|r rs IH]; [done|].
  cbn [count_results length]. destruct (succeeded r); simpl Bool.eqb; cbv iota; lia.
Qed.

Lemma count_results_nonneg ok (rs : list pyval) : 0 ≤ count_results ok rs.
Proof.
  induction rs as [|r rs IH]; [done|].
  cbn [count_results]. destruct (Bool.eqb (succeeded r) ok); lia.
Qed.

Lemma runs_length P output_dir files w rs w' :
  runs P output_dir files w rs w' → length rs = length files.
Proof. induction 1; simpl; congruence. Qed.

Lemma py_eqb_str (s : string) (v : pyval) : py_eqb (PStr s) v = true → v = PStr s.
Proof.
  destruct v; simpl; try done.
  intros Heq. apply String.eqb_eq in Heq. by subst.
Qed.

Lemma set_add_str (s : string) (langs : list pyval) :
  ∃ langs', set_add (PStr s) langs = inr langs'
            ∧ ∀ l, In l langs' ↔ In l langs ∨ l = PStr s.
Proof.
  unfold set_add. simpl. destruct (existsb (py_eqb (PStr s)) langs) eqn:Hex.
  - exists langs. split; [done|]. intros l. split; [tauto|].
    intros [Hin| ->]; [done|].
    apply existsb_exists in Hex as (v & Hin & Heq).
    by rewrite <- (py_eqb_str _ _ Heq).
  - exists (langs ++ [PStr s]). split; [done|]. intros l.
    rewrite in_app_iff. simpl. intuition congruence.
Qed.

Section BatchLoop.
Context (P : platform) (output_dir : string).

(** The loop never raises.  It calls [process_file] once per path, in
    order; each result moves exactly one of the two counters; the set of
    languages gains the language of each successful result and nothing
    else. *)
Lemma batch_loop_spec (files : list string) (acc : batch_acc) (w : world) :
  ∃ rs w' languages',
    batch_loop P output_dir files acc w
      = (inr (BatchAcc (results acc ++ rs)
                (processed_count acc + count_results true rs)
                (failed_count acc + count_results false rs)
                languages'), w')
    ∧ runs P output_dir files w rs w'
    ∧ calls w' = calls w ++ files
    ∧ stdout w' = stdout w
    ∧ (ticks w ≤ ticks w')%nat
    ∧ ∀ l, In l languages' ↔
             In l (languages_detected acc)
             ∨ ∃ r, In r rs ∧ succeeded r = true ∧ language_of r = inr l.
Proof.
  revert acc w. induction files as [|file_path rest IH]; intros acc w.
  - exists [], w, (languages_detected acc). simpl.
    rewrite app_nil_r, !Z.add_0_r. destruct acc. simpl.
    repeat split; try done; [constructor|by rewrite app_nil_r|tauto|].
    intros [?|(r & [] & _)]. done.
  - destruct (process_file_total P file_path output_dir w)
      as (r & w1 & ok & Hrun & Hok & Hlang & Hcalls & Hout & Htk).
    assert (Hsucc : succeeded r = ok) by (unfold succeeded; by rewrite Hok).
    cbn [batch_loop]. rewrite (bind_inr _ _ _ _ _ Hrun).
    rewrite Hok. unfold lift at 1. unfold bind at 1, ret at 1. simpl truthy.
    destruct ok.
    + change (py_get r "language" (PStr "unknown")) with (language_of r).
      rewrite (Hlang eq_refl). unfold lift at 1. unfold bind at 1, ret at 1.
      destruct (set_add_str (detect_language P file_path) (languages_detected acc))
        as (languages1 & Hadd & Hin1).
      rewrite Hadd. unfold lift at 1. unfold bind at 1, ret at 1.
      destruct (IH (BatchAcc (results acc ++ [r]) (processed_count acc + 1)
                      (failed_count acc) languages1) w1)
        as (rs & w' & languages' & Hloop & Hruns & Hcalls' & Hout' & Htk' & Hin').
      exists (r :: rs), w', languages'. cbn [truthy]. rewrite Hloop. simpl.
      rewrite Hsucc. simpl. rewrite <- app_assoc. simpl.
      repeat split.
      * do 2 f_equal. f_equal; lia.
      * by econstructor.
      * rewrite Hcalls', Hcalls, <- app_assoc. done.
      * congruence.
      * lia.
      * intros Hl. apply Hin' in Hl as [Hl|(r' & Hr' & Hs' & Hl')].
        -- apply Hin1 in Hl as [Hl| ->]; [by left|].
           right. exists r. by rewrite Hsucc, (Hlang eq_refl); auto.
        -- right. exists r'. auto.
      * intros [Hl|(r' & [<-|Hr'] & Hs' & Hl')]; apply Hin'.
        -- left. apply Hin1. by left.
        -- left. apply Hin1. right. rewrite (Hlang eq_refl) in Hl'. congruence.
        -- right. by exists r'.
    + destruct (IH (BatchAcc (results acc ++ [r]) (processed_count acc)
                      (failed_count acc + 1) (languages_detected acc)) w1)
        as (rs & w' & languages' & Hloop & Hruns & Hcalls' & Hout' & Htk' & Hin').
      exists (r :: rs), w', languages'. cbn [truthy]. rewrite Hloop. simpl.
      rewrite Hsucc. simpl. rewrite <- app_assoc. simpl.
      repeat split.
      * do 2 f_equal. f_equal; lia.
      * by econstructor.
      * rewrite Hcalls', Hcalls, <- app_assoc. done.
      * congruence.
      * lia.
      * intros Hl. apply Hin' in Hl as [Hl|(r' & Hr' & Hs' & Hl')]; [by left|].
        right. exists r'. auto.
      * intros [Hl|(r' & [<-|Hr'] & Hs' & Hl')]; apply Hin'.
        -- by left.
        -- congruence.
        -- right. by exists r'.
Qed.
End BatchLoop.

(** ** os.makedirs *)

Lemma string_app_nil_r (s : string) : s +:+ "" = s.
Proof.
  induction s as [|c s IH]; [done|].
  change (String c (s +:+ "") = String c s). by rewrite IH.
Qed.

Lemma is_prefix_refl (p : string) : is_prefix p p.
Proof. exists "". by rewrite string_app_nil_r. Qed.

Lemma is_prefix_trans (a b c : string) : is_prefix a b → is_prefix b c → is_prefix a c.
Proof. intros [r1 ->] [r2 ->]. exists (r1 +:+ r2). apply string_app_assoc. Qed.

Lemma substring_split (n : nat) (s : string) :
  s = substring 0 n s +:+ substring n (String.length s - n) s.
Proof.
  revert s. induction n as [|n IH]; intros s.
  - rewrite Nat.sub_0_r, substring_whole. by destruct s.
  - destruct s as [|c s]; [done|].
    change (String c s
            = String c (substring 0 n s +:+ substring n (String.length s - n) s)).
    by rewrite <- IH.
Qed.

Lemma rstrip_sep_prefix (s : string) : is_prefix (rstrip_sep s) s.
Proof.
  induction s as [|c s [rest IH]]; [by exists ""|].
  cbn [rstrip_sep].
  destruct (String.eqb (rstrip_sep s) "" && Ascii.eqb c "/").
  - by exists (String c s).
  - exists rest. change (String c s = String c (rstrip_sep s +:+ rest)).
    by rewrite <- IH.
Qed.

Lemma rstrip_sep_length (s : string) :
  (String.length (rstrip_sep s) ≤ String.length s)%nat.
Proof.
  destruct (rstrip_sep_prefix s) as [rest Hrest].
  rewrite Hrest at 2. rewrite length_app_string. lia.
Qed.

(** The head of a split is an initial part of the path, and a proper one
    when the tail is not empty. *)
Lemma path_split_head (p : string) :
  is_prefix (path_split p).1 p
  ∧ (String.length (path_split p).1 + String.length (path_split p).2
     ≤ String.length p)%nat.
Proof.
  unfold path_split, slice, slice_from. cbv zeta. cbn [fst snd].
  rewrite Z.sub_0_r. set (i := Z.to_nat (rfind "/" p + 1)).
  change (Z.to_nat 0) with 0%nat.
  pose proof (substring_split i p) as Hsplit.
  assert (Hhead : is_prefix (substring 0 i p) p) by (by eexists).
  assert (Hlen : (String.length (substring 0 i p)
                  + String.length (substring i (String.length p - i) p)
                  = String.length p)%nat).
  { rewrite <- length_app_string. by rewrite <- Hsplit. }
  destruct (negb (String.eqb (substring 0 i p) "")
            && negb (String.eqb (rstrip_sep (substring 0 i p)) "")).
  - split; [by eapply is_prefix_trans; [apply rstrip_sep_prefix|]|].
    pose proof (rstrip_sep_length (substring 0 i p)). lia.
  - split; [done|lia].
Qed.

Lemma set_fs_same (w : world) (m : gmap string entry) :
  fs w = m → set_fs (λ _, m) w = w.
Proof. destruct w. simpl. by intros ->. Qed.

Section Makedirs.
Context (P : platform).

(** The last step of [os.makedirs], [os.mkdir] under its [except OSError]:
    its value and the file system it leaves are decided by the file system
    alone; the only path it can add is [name], as a directory. *)
Lemma mkdir_step_pure (name : string) (m : gmap string entry) :
  ∃ r m',
    (∀ w, fs w = m →
          try_except (os_mkdir P name)
            (fun e =>
               let* is_dir := os_path_isdir name in
               if negb is_dir then raise e else ret tt) w
          = (r, set_fs (λ _, m') w))
    ∧ (∀ q, m' !! q = m !! q
            ∨ (m !! q = None ∧ m' !! q = Some Dir ∧ q = name)).
Proof.
  set (c := try_except _ _).
  assert (Hsame : ∀ r : exn + unit,
            (∀ w, fs w = m → c w = (r, w)) →
            ∃ r m',
              (∀ w, fs w = m → c w = (r, set_fs (λ _, m') w))
              ∧ (∀ q, m' !! q = m !! q
                      ∨ (m !! q = None ∧ m' !! q = Some Dir ∧ q = name))).
  { intros r Hr. exists r, m. split; [|by left].
    intros w Hw. rewrite (set_fs_same _ _ Hw). by apply Hr. }
  assert (Hc : ∀ w, c w = try_except (os_mkdir P name)
            (fun e =>
               let* is_dir := os_path_isdir name in
               if negb is_dir then raise e else ret tt) w) by done.
  clearbody c.
  unfold try_except, os_mkdir, bind, os_path_isdir, raise, ret in Hc.
  destruct (String.eqb name "") eqn:Hempty.
  { destruct (match m !! name with Some Dir => true | _ => false end) eqn:Hdir;
      eapply Hsame; intros w Hw; rewrite Hc, Hw, Hdir; reflexivity. }
  destruct (m !! name) as [en|] eqn:Hname.
  { destruct en; eapply Hsame; intros w Hw; rewrite Hc, Hw, Hname; cbn beta iota;
      rewrite Hw, Hname; reflexivity. }
  assert (Hraise : ∀ e : exn,
            (∀ w, fs w = m → c w = (inl e, w)) →
            ∃ r m',
              (∀ w, fs w = m → c w = (r, set_fs (λ _, m') w))
              ∧ (∀ q, m' !! q = m !! q
                      ∨ (m !! q = None ∧ m' !! q = Some Dir ∧ q = name)))
    by (intros e; apply Hsame).
  destruct (fault P OpMkdir name) as [e|] eqn:Hfault.
  { destruct (m !! parent_dir name) as [[data|]|] eqn:Hparent;
      eapply Hraise; intros w Hw; rewrite Hc, Hw, Hname, Hparent; cbn beta iota;
      rewrite Hw, Hname; reflexivity. }
  destruct (m !! parent_dir name) as [[data|]|] eqn:Hparent.
  { eapply Hraise. intros w Hw. rewrite Hc, Hw, Hname, Hparent. cbn beta iota.
    rewrite Hw, Hname. reflexivity. }
  all: exists (inr tt), (<[name := Dir]> m); split;
    [ intros w Hw; rewrite Hc, Hw, Hname, Hparent; unfold set_fs; cbn; by rewrite Hw
    | intros q; destruct (decide (name = q)) as [<-|Hne];
      [ right; by rewrite lookup_insert_eq | left; by rewrite lookup_insert_ne ] ].
Qed.

(** The pair that the recursion of [os.makedirs] works on: an initial part
    of [name], shorter than [name] when the second component is not
    empty. *)
Lemma split_last_head (name : string) :
  is_prefix (split_last name).1 name
  ∧ ((split_last name).2 ≠ ""
     → (String.length (split_last name).1 < String.length name)%nat).
Proof.
  unfold split_last.
  pose proof (path_split_head name) as [Hpre Hlen].
  destruct (path_split name) as [head0 tail0]. cbn [fst snd] in *.
  destruct (String.eqb_spec tail0 "") as [->|Hne].
  - pose proof (path_split_head head0) as [Hpre0 Hlen0].
    destruct (path_split head0) as [h t]. cbn [fst snd] in *.
    split; [by eapply is_prefix_trans|].
    intros Ht. destruct t; [done|]. simpl in *. lia.
  - cbn [fst snd]. split; [done|]. intros _.
    destruct tail0; [done|]. simpl in *. lia.
Qed.

(** [os.makedirs]: its value and the file system it leaves are decided by
    the file system alone, the rest of the world is as it was; every path
    it adds is a directory and an initial part of [name]; nothing that was
    there changes. *)
Lemma makedirs_rec_pure (fuel : nat) (name : string) (m : gmap string entry) :
  ∃ r m',
    (∀ w, fs w = m → makedirs_rec P fuel name w = (r, set_fs (λ _, m') w))
    ∧ (∀ q, m' !! q = m !! q
            ∨ (m !! q = None ∧ m' !! q = Some Dir ∧ is_prefix q name)).
Proof.
  revert name m. induction fuel as [|fuel IH]; intros name m.
  { eexists _, m. split; [|by left]. intros w Hw. cbn [makedirs_rec]. unfold raise.
    by rewrite (set_fs_same _ _ Hw). }
  cbn [makedirs_rec].
  pose proof (split_last_head name) as [Hpre _].
  destruct (split_last name) as [head tail]. cbn [fst] in Hpre.
  set (last := try_except (os_mkdir P name) _).
  (* the step that creates [name] itself, from a file system [m1] *)
  assert (Hlast : ∀ m1 : gmap string entry,
            (∀ q, m1 !! q = m !! q
                  ∨ (m !! q = None ∧ m1 !! q = Some Dir ∧ is_prefix q name)) →
            ∃ r m',
              (∀ w, fs w = m1 → last w = (r, set_fs (λ _, m') w))
              ∧ (∀ q, m' !! q = m !! q
                      ∨ (m !! q = None ∧ m' !! q = Some Dir ∧ is_prefix q name))).
  { intros m1 Hm1. destruct (mkdir_step_pure name m1) as (r & m' & Hrun & Hm').
    exists r, m'. split; [done|]. intros q.
    destruct (Hm' q) as [Heq|(Hnone & Hdir & ->)].
    - rewrite Heq. apply Hm1.
    - destruct (Hm1 name) as [Heq|(? & Hd & _)]; [|congruence].
      right. rewrite <- Heq. split; [done|]. split; [done|]. apply is_prefix_refl. }
  clearbody last.
  destruct (negb (String.eqb head "") && negb (String.eqb tail "")) eqn:Hcond.
  2:{ destruct (Hlast m (λ q, or_introl eq_refl)) as (r & m' & Hrun & Hm').
      exists r, m'. split; [|done]. intros w Hw.
      unfold bind, ret. by apply Hrun. }
  destruct (m !! head) as [en|] eqn:Hexists.
  { destruct (Hlast m (λ q, or_introl eq_refl)) as (r & m' & Hrun & Hm').
    exists r, m'. split; [|done]. intros w Hw.
    unfold bind, os_path_exists, ret. rewrite Hw, Hexists.
    rewrite bool_decide_eq_true_2; [|by eexists]. cbn [negb]. by apply Hrun. }
  destruct (IH head m) as (r1 & m1 & Hrec & Hm1).
  assert (Hm1' : ∀ q, m1 !! q = m !! q
                      ∨ (m !! q = None ∧ m1 !! q = Some Dir ∧ is_prefix q name)).
  { intros q. destruct (Hm1 q) as [?|(? & ? & ?)]; [by left|right].
    split; [done|]. split; [done|]. by eapply is_prefix_trans. }
  assert (Hfs1 : ∀ w, fs (set_fs (λ _, m1) w) = m1) by done.
  assert (Hset : ∀ m2 w, set_fs (λ _, m2) (set_fs (λ _ : gmap string entry, m1) w)
                         = set_fs (λ _, m2) w) by done.
  destruct (Hlast m1 Hm1') as (r & m' & Hrun & Hm').
  destruct r1 as [e|[]].
  - destruct (String.eqb (exn_class e) "FileExistsError") eqn:Hclass.
    + destruct (String.eqb tail ".") eqn:Hdot.
      * exists (inr tt), m1. split; [|done]. intros w Hw.
        unfold bind, os_path_exists, try_except_if, ret. rewrite Hw, Hexists.
        rewrite bool_decide_eq_false_2; [|by intros [? ?]]. cbn [negb].
        by rewrite (Hrec w Hw), Hclass.
      * exists r, m'. split; [|done]. intros w Hw.
        unfold bind, os_path_exists, try_except_if, ret. rewrite Hw, Hexists.
        rewrite bool_decide_eq_false_2; [|by intros [? ?]]. cbn [negb].
        rewrite (Hrec w Hw), Hclass.
        by rewrite (Hrun _ (Hfs1 w)), Hset.
    + exists (inl e), m1. split; [|done]. intros w Hw.
      unfold bind, os_path_exists, try_except_if, ret. rewrite Hw, Hexists.
      rewrite bool_decide_eq_false_2; [|by intros [? ?]]. cbn [negb].
      by rewrite (Hrec w Hw), Hclass.
  - destruct (String.eqb tail ".") eqn:Hdot.
    + exists (inr tt), m1. split; [|done]. intros w Hw.
      unfold bind, os_path_exists, try_except_if, ret. rewrite Hw, Hexists.
      rewrite bool_decide_eq_false_2; [|by intros [? ?]]. cbn [negb].
      by rewrite (Hrec w Hw).
    + exists r, m'. split; [|done]. intros w Hw.
      unfold bind, os_path_exists, try_except_if, ret. rewrite Hw, Hexists.
      rewrite bool_decide_eq_false_2; [|by intros [? ?]]. cbn [negb].
      rewrite (Hrec w Hw).
      by rewrite (Hrun _ (Hfs1 w)), Hset.
Qed.

(** The recursion of [os.makedirs] goes from a path to a shorter one, so
    that the fuel [os_makedirs] gives is never used up: more fuel changes
    nothing. *)
Lemma makedirs_rec_fuel (fuel : nat) (name : string) (w : world) :
  (String.length name < fuel)%nat →
  makedirs_rec P (S fuel) name w = makedirs_rec P fuel name w.
Proof.
  revert name w. induction fuel as [|fuel IH]; intros name w Hlen; [lia|].
  remember (S fuel) as fuel1 eqn:Hfuel1.
  cbn [makedirs_rec].
  pose proof (split_last_head name) as [_ Hshort].
  destruct (split_last name) as [head tail] eqn:Hsplit. cbn [fst snd] in Hshort.
  set (deeper := makedirs_rec P fuel1 head).
  subst fuel1. cbn [makedirs_rec]. rewrite Hsplit.
  destruct (String.eqb_spec tail "") as [->|Htail].
  { by rewrite andb_false_r. }
  assert (Hdeep : ∀ w, deeper w = makedirs_rec P fuel head w).
  { intros w1. apply IH. specialize (Hshort Htail). lia. }
  clearbody deeper.
  destruct (negb (String.eqb head "")); [|done]. cbn [andb negb].
  unfold bind, os_path_exists, try_except_if.
  destruct (negb (bool_decide (is_Some (fs w !! head)))); [|reflexivity].
  by rewrite Hdeep.
Qed.

(** [os.makedirs] on a path [name]: what it returns and the file system it
    leaves depend on the file system alone, and nothing else in the world
    changes.  A path it adds is a directory and an initial part of [name];
    what was there stays as it was. *)
Lemma os_makedirs_pure (name : string) (m : gmap string entry) :
  ∃ r m',
    (∀ w, fs w = m → os_makedirs P name w = (r, set_fs (λ _, m') w))
    ∧ (∀ q, m' !! q = m !! q
            ∨ (m !! q = None ∧ m' !! q = Some Dir ∧ is_prefix q name)).
Proof. apply makedirs_rec_pure. Qed.

Lemma os_makedirs_world (name : string) (w : world) :
  ticks (os_makedirs P name w).2 = ticks w
  ∧ log (os_makedirs P name w).2 = log w
  ∧ stdout (os_makedirs P name w).2 = stdout w
  ∧ calls (os_makedirs P name w).2 = calls w.
Proof.
  destruct (os_makedirs_pure name (fs w)) as (r & m' & Hrun & _).
  by rewrite (Hrun w eq_refl).
Qed.

Lemma os_makedirs_same_fs (name : string) (w1 w2 : world) :
  fs w1 = fs w2 →
  (os_makedirs P name w1).1 = (os_makedirs P name w2).1
  ∧ fs (os_makedirs P name w1).2 = fs (os_makedirs P name w2).2.
Proof.
  intros Hfs. destruct (os_makedirs_pure name (fs w1)) as (r & m' & Hrun & _).
  by rewrite (Hrun w1 eq_refl), (Hrun w2 (eq_sym Hfs)).
Qed.

Lemma os_makedirs_entries (name : string) (w : world) (q : string) :
  fs (os_makedirs P name w).2 !! q = fs w !! q
  ∨ (fs w !! q = None
     ∧ fs (os_makedirs P name w).2 !! q = Some Dir
     ∧ is_prefix q name).
Proof.
  destruct (os_makedirs_pure name (fs w)) as (r & m' & Hrun & Hm').
  rewrite (Hrun w eq_refl). apply Hm'.
Qed.

Lemma os_makedirs_fuel (name : string) (n : nat) (w : world) :
  makedirs_rec P (S (String.length name) + n) name w = os_makedirs P name w.
Proof.
  induction n as [|n IH]; [by rewrite Nat.add_0_r|].
  rewrite Nat.add_succ_r, makedirs_rec_fuel; [done|lia].
Qed.
End Makedirs.

(** [os.makedirs] at work: the directories on the way are made; a
    directory that is there is left alone; a file in the way and the empty
    path are errors, and nothing is made. *)
Example os_makedirs_examples :
  os_makedirs mock_platform "a/b/c" bare_world
  = (inr tt, set_fs (λ _, <["a/b/c" := Dir]> (<["a/b" := Dir]> (<["a" := Dir]> bare_fs)))
               bare_world)
  ∧ os_makedirs mock_platform "out" sample_world = (inr tt, sample_world)
  ∧ os_makedirs mock_platform "a.py" sample_world
    = (inl (Exn "FileExistsError" "File exists: a.py"), sample_world)
  ∧ os_makedirs mock_platform "a.py/x/y" sample_world
    = (inl (Exn "NotADirectoryError" "Not a directory: a.py/x"), sample_world)
  ∧ os_makedirs mock_platform "" sample_world
    = (inl (Exn "FileNotFoundError" "No such file or directory: "), sample_world).
Proof. by vm_compute. Qed.

(** ** process_batch *)

(** Replaces the run of the loop in the goal by the result that
    [batch_loop_spec] gives it. *)
Tactic Notation "run_batch_loop" constr(P) constr(output_dir)
    "as" simple_intropattern(pat) :=
  match goal with
  | |- context [batch_loop P output_dir ?fl ?a ?w0] =>
      destruct (batch_loop_spec P output_dir fl a w0) as pat
  end.

Section ProcessBatch.
Context (P : platform) (batch_file output_dir job_id : string).

(** The control flow of [process_batch], step by step. *)
Lemma process_batch_unfold (w : world) :
  process_batch P batch_file output_dir job_id w =
    let start_time := clock P (ticks w) in
    match os_makedirs P output_dir (set_ticks S w) with
    | (inl e, w1) => batch_error_run P e start_time w1
    | (inr _, w1) =>
        match open_json_load P batch_file w1 with
        | (inl e, w2) => batch_error_run P e start_time w2
        | (inr batch_data, w2) =>
            match dict_get batch_data "files" [] with
            | [] => (inr (empty_summary (clock P (ticks w2) - start_time)),
                     set_ticks S w2)
            | files =>
                match batch_loop P output_dir files (BatchAcc [] 0 0 [])
                        (set_log (λ ls, ls ++ [(INFO,
                           "Processing batch of "
                           +:+ pretty (Z.of_nat (length files))
                           +:+ " files for job " +:+ job_id)]) w2) with
                | (inl e, w3) => batch_error_run P e start_time w3
                | (inr acc, w3) =>
                    (inr (batch_summary acc (clock P (ticks w3) - start_time)),
                     set_ticks S w3)
                end
            end
        end
    end.
Proof.
  unfold process_batch. unfold bind at 1, time_time at 1. unfold try_except.
  unfold bind at 1. cbv zeta.
  destruct (os_makedirs P output_dir (set_ticks S w)) as [[e|[]] w1]; [done|].
  unfold bind at 1.
  destruct (open_json_load P batch_file w1) as [[e|batch_data] w2]; [done|].
  destruct (dict_get batch_data "files" []) as [|file_path rest]; [done|].
  unfold bind at 1, logger at 1. unfold bind at 1.
  destruct (batch_loop _ _ _ _ _) as [[e|acc] w3]; done.
Qed.

(** [os.makedirs] at the point where [process_batch] calls it, after the
    first reading of the clock: the value is the one it has in [w], and the
    world it leaves is [w] with one tick more and, possibly, new
    directories on the way to [output_dir]. *)
Lemma os_makedirs_start (w : world) :
  (os_makedirs P output_dir (set_ticks S w)).1 = (os_makedirs P output_dir w).1
  ∧ ticks (os_makedirs P output_dir (set_ticks S w)).2 = S (ticks w)
  ∧ log (os_makedirs P output_dir (set_ticks S w)).2 = log w
  ∧ stdout (os_makedirs P output_dir (set_ticks S w)).2 = stdout w
  ∧ calls (os_makedirs P output_dir (set_ticks S w)).2 = calls w
  ∧ ∀ q, fs (os_makedirs P output_dir (set_ticks S w)).2 !! q = fs w !! q
         ∨ (fs w !! q = None
            ∧ fs (os_makedirs P output_dir (set_ticks S w)).2 !! q = Some Dir
            ∧ is_prefix q output_dir).
Proof.
  destruct (os_makedirs_same_fs P output_dir (set_ticks S w) w eq_refl) as [Hval _].
  destruct (os_makedirs_world P output_dir (set_ticks S w)) as (Htk & Hlog & Hout & Hcalls).
  repeat split; [done..|].
  intros q. apply (os_makedirs_entries P output_dir (set_ticks S w) q).
Qed.

(** Loading the manifest changes nothing. *)
Lemma open_json_load_same (w : world) : (open_json_load P batch_file w).2 = w.
Proof.
  unfold open_json_load.
  destruct (fault P OpOpenRead batch_file); [done|].
  by destruct (fs w !! batch_file) as [[?|]|].
Qed.

(** The steps before the loop, for a manifest that loads. *)
Lemma process_batch_preamble (w : world) batch_data :
  can_makedirs P output_dir w →
  manifest_is P batch_file w batch_data →
  ∃ w1, os_makedirs P output_dir (set_ticks S w) = (inr tt, w1)
        ∧ open_json_load P batch_file w1 = (inr batch_data, w1)
        ∧ calls w1 = calls w ∧ stdout w1 = stdout w ∧ ticks w1 = S (ticks w).
Proof.
  intros Hdir (data & Hfile & Hfault & Hload).
  destruct (os_makedirs_start w) as (Hval & Htk & _ & Hout & Hcalls & Hfs).
  unfold can_makedirs in Hdir. rewrite Hdir in Hval.
  destruct (os_makedirs P output_dir (set_ticks S w)) as [r w1].
  cbn [fst snd] in *. subst r. exists w1. repeat split; [|done..].
  unfold open_json_load. rewrite Hfault.
  destruct (Hfs batch_file) as [Heq|[Hnone _]]; [|congruence].
  by rewrite Heq, Hfile, Hload.
Qed.

(** [process_batch] always returns a summary with a Boolean ["success"],
    and prints nothing. *)
Lemma process_batch_total (w : world) :
  ∃ summary w' ok,
    process_batch P batch_file output_dir job_id w = (inr summary, w')
    ∧ dict_item summary "success" = inr (PBool ok)
    ∧ stdout w' = stdout w
    ∧ (ticks w < ticks w')%nat.
Proof.
  rewrite process_batch_unfold. cbv zeta.
  destruct (os_makedirs_start w) as (_ & Hmkt & _ & Hmk & _).
  destruct (os_makedirs P output_dir (set_ticks S w)) as [[e|[]] w1];
    simpl in Hmk, Hmkt.
  { eexists _, _, false. unfold batch_error_run. repeat split; simpl; [congruence|lia]. }
  pose proof (open_json_load_same w1) as Hld.
  destruct (open_json_load P batch_file w1) as [[e|batch_data] w2];
    simpl in Hld; subst w2.
  { eexists _, _, false. unfold batch_error_run. repeat split; simpl; [congruence|lia]. }
  destruct (dict_get batch_data "files" []) as [|file_path rest].
  { eexists _, _, false. repeat split; simpl; [congruence|lia]. }
  run_batch_loop P output_dir as (rs & w3 & langs & -> & _ & _ & Hout & Htk & _).
  eexists _, _, true. simpl in Hout, Htk. repeat split; simpl; [congruence|lia].
Qed.

(** A summary that reports success is the summary built after the loop,
    from counters that are not negative. *)
Lemma process_batch_success_shape (w : world) summary w' :
  process_batch P batch_file output_dir job_id w = (inr summary, w') →
  succeeded summary = true →
  ∃ acc total_time,
    summary = batch_summary acc total_time
    ∧ 0 ≤ processed_count acc ∧ 0 ≤ failed_count acc.
Proof.
  rewrite process_batch_unfold. cbv zeta.
  destruct (os_makedirs P output_dir (set_ticks S w)) as [[e|[]] w1];
    [by intros [= <- <-]|].
  destruct (open_json_load P batch_file w1) as [[e|batch_data] w2];
    [by intros [= <- <-]|].
  destruct (dict_get batch_data "files" []) as [|file_path rest];
    [by intros [= <- <-]|].
  run_batch_loop P output_dir as (rs & w3 & langs & -> & _).
  intros [= <- <-] _. eexists _, _. split; [done|]. simpl.
  split; apply count_results_nonneg.
Qed.
End ProcessBatch.

(** C1 (as amended). For a manifest that loads and whose file list is empty
    (or absent), [process_batch] returns the summary [success = False,
    message = "No files in batch", files_processed = 0] and [process_file] is
    not invoked. *)
Theorem process_batch_empty_manifest (P : platform) (batch_file output_dir job_id : string)
    (w : world) (batch_data : list (string * list string)) :
  can_makedirs P output_dir w →
  manifest_is P batch_file w batch_data →
  dict_get batch_data "files" [] = [] →
  ∃ summary w',
    process_batch P batch_file output_dir job_id w = (inr summary, w')
    ∧ summary = empty_summary (clock P (S (ticks w)) - clock P (ticks w))
    ∧ dict_item summary "files_processed" = inr (PInt 0)
    ∧ dict_item summary "success" = inr (PBool false)
    ∧ calls w' = calls w.
Proof.
  intros Hdir Hmanifest Hfiles.
  destruct (process_batch_preamble P batch_file output_dir w _ Hdir Hmanifest)
    as (w1 & Hmk & Hload & Hcalls & _ & Hticks).
  rewrite process_batch_unfold. cbv zeta. rewrite Hmk, Hload, Hfiles, Hticks.
  eexists _, _. by repeat split.
Qed.

Lemma process_batch_empty_manifest_witness :
  can_makedirs mock_platform "out" sample_world
  ∧ manifest_is mock_platform "empty.json" sample_world [("files", [])]
  ∧ dict_get [("files", @nil string)] "files" [] = []
  ∧ ∃ summary w',
      process_batch mock_platform "empty.json" "out" "job-1" sample_world
        = (inr summary, w')
      ∧ summary = empty_summary (ticking_clock 1 - ticking_clock 0)
      ∧ dict_item summary "files_processed" = inr (PInt 0)
      ∧ dict_item summary "success" = inr (PBool false)
      ∧ calls w' = calls sample_world.
Proof.
  assert (Hdir : can_makedirs mock_platform "out" sample_world)
    by (by vm_compute).
  assert (Hmanifest : manifest_is mock_platform "empty.json" sample_world [("files", [])])
    by (eexists; split; [by vm_compute|split; by vm_compute]).
  repeat (split; [assumption || reflexivity|]).
  exact (process_batch_empty_manifest mock_platform "empty.json" "out" "job-1"
           sample_world _ Hdir Hmanifest eq_refl).
Defined.

(** C1 as stated fails: for the manifest [{"files": []}] the summary has
    [files_processed = 0] and no file is processed, but its [success] is
    [False]. *)
Lemma process_batch_empty_manifest_counterexample :
  string_of_list_byte
    match fs sample_world !! "empty.json" with Some (File data) => data | _ => [] end
    = manifest_text []
  ∧ (process_batch mock_platform "empty.json" "out" "job-1" sample_world).1
    = inr (PDict [("success", PBool false);
                  ("message", PStr "No files in batch");
                  ("files_processed", PInt 0);
                  ("processing_time", PFloat (1 - 0))])
  ∧ calls (process_batch mock_platform "empty.json" "out" "job-1" sample_world).2 = []
  ∧ ¬ ∃ summary,
        (process_batch mock_platform "empty.json" "out" "job-1" sample_world).1
          = inr summary
        ∧ dict_item summary "success" = inr (PBool true).
Proof.
  split; [by vm_compute|]. split; [by vm_compute|]. split; [by vm_compute|].
  intros (summary & Hrun & Hsuccess).
  vm_compute in Hrun. injection Hrun as <-. by vm_compute in Hsuccess.
Qed.

(** C2. For a manifest that loads with the list [files] of [N] paths, the
    run of [process_batch] is this: from the world [w0] that [os.makedirs]
    leaves, [process_file] is invoked once per path, in order, each in the
    world its predecessor left; the run ends in the world the last
    invocation left, one reading of the clock later.  The results [rs] of
    these invocations split into successes and failures, [files_processed]
    is the number of successes, and successes plus failures make [N].  When
    [N] is not 0 the summary is the successful one: [files_failed] is the
    number of failures and [languages_detected] holds exactly the languages
    of the successful results.  (For [N = 0] the summary is the short one of
    C1, without these two keys.) *)
Theorem process_batch_counts (P : platform) (batch_file output_dir job_id : string)
    (w : world) (batch_data : list (string * list string)) :
  can_makedirs P output_dir w →
  manifest_is P batch_file w batch_data →
  let files := dict_get batch_data "files" [] in
  ∃ summary w' rs w0 w2,
    process_batch P batch_file output_dir job_id w = (inr summary, w')
    ∧ os_makedirs P output_dir (set_ticks S w) = (inr tt, w0)
    ∧ runs P output_dir files (batch_entry job_id files w0) rs w2
    ∧ w' = set_ticks S w2
    ∧ calls w' = calls w ++ files
    ∧ length rs = length files
    ∧ dict_item summary "files_processed" = inr (PInt (count_results true rs))
    ∧ count_results true rs + count_results false rs = Z.of_nat (length files)
    ∧ (files ≠ [] →
       dict_item summary "success" = inr (PBool true)
       ∧ dict_item summary "files_failed" = inr (PInt (count_results false rs))
       ∧ ∃ languages,
           dict_item summary "languages_detected" = inr (PList languages)
           ∧ ∀ l, In l languages ↔
                    ∃ r, In r rs ∧ succeeded r = true ∧ language_of r = inr l).
Proof.
  intros Hdir Hmanifest files.
  destruct (process_batch_preamble P batch_file output_dir w _ Hdir Hmanifest)
    as (w1 & Hmk & Hload & Hcalls & _ & Hticks).
  rewrite process_batch_unfold. cbv zeta. rewrite Hmk, Hload.
  fold files. destruct files as [|file_path rest] eqn:Hfiles.
  - exists (empty_summary (clock P (ticks w1) - clock P (ticks w))),
      (set_ticks S w1), [], w1, w1. simpl.
    repeat split; try done; [constructor|by rewrite app_nil_r].
  - run_batch_loop P output_dir
      as (rs & w3 & langs & -> & Hruns & Hcalls3 & _ & _ & Hlangs).
    eexists _, _, rs, w1, w3. split; [reflexivity|]. split; [reflexivity|].
    split; [exact Hruns|]. split; [reflexivity|].
    pose proof (runs_length _ _ _ _ _ _ Hruns) as Hlen.
    simpl in Hcalls3, Hlangs. simpl.
    repeat split; try done.
    + by rewrite Hcalls3, Hcalls.
    + rewrite count_results_length, Hlen. done.
    + eexists. split; [reflexivity|]. intros l. rewrite Hlangs. tauto.
Qed.

Lemma process_batch_counts_witness :
  can_makedirs real_platform "out" sample_world
  ∧ manifest_is real_platform "four.json" sample_world
      [("files", ["a.py"; "x.md"; "e.txt"; "Lib.RS"])]
  ∧ ∃ summary w' rs w0 w2,
      process_batch real_platform "four.json" "out" "job-1" sample_world
        = (inr summary, w')
      ∧ os_makedirs real_platform "out" (set_ticks S sample_world) = (inr tt, w0)
      ∧ runs real_platform "out" ["a.py"; "x.md"; "e.txt"; "Lib.RS"]
          (batch_entry "job-1" ["a.py"; "x.md"; "e.txt"; "Lib.RS"] w0) rs w2
      ∧ w' = set_ticks S w2
      ∧ calls w' = ["a.py"; "x.md"; "e.txt"; "Lib.RS"]
      ∧ length rs = 4%nat
      ∧ dict_item summary "files_processed" = inr (PInt (count_results true rs))
      ∧ count_results true rs + count_results false rs = 4
      ∧ dict_item summary "files_failed" = inr (PInt (count_results false rs))
      ∧ ∃ languages,
          dict_item summary "languages_detected" = inr (PList languages)
          ∧ ∀ l, In l languages ↔
                   ∃ r, In r rs ∧ succeeded r = true ∧ language_of r = inr l.
Proof.
  assert (Hdir : can_makedirs real_platform "out" sample_world)
    by (by vm_compute).
  assert (Hmanifest : manifest_is real_platform "four.json" sample_world
                        [("files", ["a.py"; "x.md"; "e.txt"; "Lib.RS"])])
    by (eexists; split; [by vm_compute|split; by vm_compute]).
  repeat (split; [assumption|]).
  destruct (process_batch_counts real_platform "four.json" "out" "job-1" sample_world
              _ Hdir Hmanifest)
    as (summary & w' & rs & w0 & w2 & Hrun & Hmk & Hruns & Hw' & Hcalls & Hlen
        & Hp & Hsum & Hne).
  destruct (Hne ltac:(discriminate)) as (_ & Hfailed & Hlangs).
  exists summary, w', rs, w0, w2. by repeat split.
Defined.

(** The run of C2 on the manifest of four paths: two files are vectorized,
    [x.md] has no token to count and [e.txt] is empty. *)
Example process_batch_four_files :
  (process_batch real_platform "four.json" "out" "job-1" sample_world).1
  = inr (PDict [("success", PBool true);
                ("message", PStr "Processed 2 files, 2 failed");
                ("files_processed", PInt 2);
                ("files_failed", PInt 2);
                ("vectors_created", PInt 2);
                ("languages_detected", PList [PStr "python"; PStr "rust"]);
                ("processing_time", PFloat (3 - 0));
                ("files_per_second", PFloat (2 / (3 - 0)))]).
Proof. by vm_compute. Qed.

(** The scenario of the specification: a manifest of one readable file and
    one missing file.  One artifact is written. *)
Example process_batch_one_missing :
  (process_batch mock_platform "batch.json" "out" "job-1" sample_world).1
  = inr (PDict [("success", PBool true);
                ("message", PStr "Processed 1 files, 1 failed");
                ("files_processed", PInt 1);
                ("files_failed", PInt 1);
                ("vectors_created", PInt 1);
                ("languages_detected", PList [PStr "python"]);
                ("processing_time", PFloat (2 - 0));
                ("files_per_second", PFloat (1 / (2 - 0)))])
  ∧ fs (process_batch mock_platform "batch.json" "out" "job-1" sample_world).2
    = <["out/4021_a.py.vec.json" := File (list_byte_of_string "{...}")]> sample_fs.
Proof. by vm_compute. Qed.

(** ** Throughput *)

Lemma files_per_second_cases (processed : Z) (total_time : Q) :
  0 ≤ processed →
  ∃ v, py_num (files_per_second processed total_time) = Some v
       ∧ (0 <= v)%Q
       ∧ ((total_time <= 0)%Q → files_per_second processed total_time = PInt 0)
       ∧ ((0 < total_time)%Q →
          files_per_second processed total_time
            = PFloat (inject_Z processed / total_time)).
Proof.
  intros Hprocessed. unfold files_per_second.
  destruct (Qlt_le_dec 0 total_time) as [Hpos|Hle].
  - exists (inject_Z processed / total_time)%Q. repeat split; try done.
    + apply Qle_shift_div_l; [done|]. rewrite Qmult_0_l.
      change 0%Q with (inject_Z 0). by rewrite <- Zle_Qle.
    + intros Hle. exfalso. by apply (Qlt_not_le _ _ Hpos).
  - exists (inject_Z 0). repeat split; try done.
    intros Hpos. exfalso. by apply (Qlt_not_le _ _ Hpos).
Qed.

(** C6. In a successful batch summary, [files_per_second] is a number that is
    not negative; it is 0 when the elapsed time is zero (or less), and
    [files_processed] divided by the elapsed time when that time is
    positive: the division is never done with a zero divisor. *)
Theorem files_per_second_guarded (P : platform) (batch_file output_dir job_id : string)
    (w : world) (summary : pyval) (w' : world) :
  process_batch P batch_file output_dir job_id w = (inr summary, w') →
  succeeded summary = true →
  ∃ processed elapsed fps v,
    dict_item summary "files_processed" = inr (PInt processed)
    ∧ dict_item summary "processing_time" = inr (PFloat elapsed)
    ∧ dict_item summary "files_per_second" = inr fps
    ∧ py_num fps = Some v
    ∧ (0 <= v)%Q
    ∧ ((elapsed == 0)%Q → fps = PInt 0)
    ∧ ((0 < elapsed)%Q → fps = PFloat (inject_Z processed / elapsed))
    ∧ ((elapsed < 0)%Q → fps = PInt 0).
Proof.
  intros Hrun Hsuccess.
  destruct (process_batch_success_shape _ _ _ _ _ _ _ Hrun Hsuccess)
    as (acc & total_time & -> & Hprocessed & _).
  destruct (files_per_second_cases (processed_count acc) total_time Hprocessed)
    as (v & Hnum & Hv & Hzero & Hpos).
  exists (processed_count acc), total_time,
    (files_per_second (processed_count acc) total_time), v. simpl.
  repeat split; try done.
  - intros Heq. apply Hzero. rewrite Heq. apply Qle_refl.
  - intros Hneg. apply Hzero. by apply Qlt_le_weak.
Qed.

Lemma files_per_second_guarded_witness :
  let run := process_batch mock_platform "batch.json" "out" "job-1" sample_world in
  let summary := batch_summary (BatchAcc [] 1 1 [PStr "python"]) (2 - 0) in
  run = (inr summary, run.2)
  ∧ succeeded summary = true
  ∧ ∃ processed elapsed fps v,
      dict_item summary "files_processed" = inr (PInt processed)
      ∧ dict_item summary "processing_time" = inr (PFloat elapsed)
      ∧ dict_item summary "files_per_second" = inr fps
      ∧ py_num fps = Some v
      ∧ (0 <= v)%Q
      ∧ ((elapsed == 0)%Q → fps = PInt 0)
      ∧ ((0 < elapsed)%Q → fps = PFloat (inject_Z processed / elapsed))
      ∧ ((elapsed < 0)%Q → fps = PInt 0).
Proof.
  cbv zeta.
  assert (Hrun : process_batch mock_platform "batch.json" "out" "job-1" sample_world
                 = (inr (batch_summary (BatchAcc [] 1 1 [PStr "python"]) (2 - 0)),
                    (process_batch mock_platform "batch.json" "out" "job-1"
                       sample_world).2))
    by (by vm_compute).
  assert (Hsuccess : succeeded (batch_summary (BatchAcc [] 1 1 [PStr "python"]) (2 - 0))
                     = true) by reflexivity.
  split; [exact Hrun|]. split; [exact Hsuccess|].
  exact (files_per_second_guarded mock_platform "batch.json" "out" "job-1"
           sample_world _ _ Hrun Hsuccess).
Defined.

(** With a clock that stands still the elapsed time is zero and the
    throughput is the integer 0. *)
Example files_per_second_frozen_clock :
  let summary := (process_batch (sample_platform false frozen_clock no_fault)
                    "batch.json" "out" "job-1" sample_world).1 in
  summary = inr (PDict [("success", PBool true);
                        ("message", PStr "Processed 1 files, 1 failed");
                        ("files_processed", PInt 1);
                        ("files_failed", PInt 1);
                        ("vectors_created", PInt 1);
                        ("languages_detected", PList [PStr "python"]);
                        ("processing_time", PFloat (0 - 0));
                        ("files_per_second", PInt 0)]).
Proof. by vm_compute. Qed.

(** C9. In a successful batch summary, [vectors_created] is the same number
    as [files_processed]. *)
Theorem vectors_created_is_files_processed (P : platform)
    (batch_file output_dir job_id : string) (w : world) (summary : pyval) (w' : world) :
  process_batch P batch_file output_dir job_id w = (inr summary, w') →
  succeeded summary = true →
  ∃ n, dict_item summary "vectors_created" = inr (PInt n)
       ∧ dict_item summary "files_processed" = inr (PInt n).
Proof.
  intros Hrun Hsuccess.
  destruct (process_batch_success_shape _ _ _ _ _ _ _ Hrun Hsuccess)
    as (acc & total_time & -> & _).
  by exists (processed_count acc).
Qed.

Lemma vectors_created_is_files_processed_witness :
  let run := process_batch real_platform "four.json" "out" "job-1" sample_world in
  let summary := batch_summary (BatchAcc [] 2 2 [PStr "python"; PStr "rust"]) (3 - 0) in
  run = (inr summary, run.2)
  ∧ succeeded summary = true
  ∧ ∃ n, dict_item summary "vectors_created" = inr (PInt n)
         ∧ dict_item summary "files_processed" = inr (PInt n).
Proof.
  cbv zeta.
  assert (Hrun : process_batch real_platform "four.json" "out" "job-1" sample_world
                 = (inr (batch_summary (BatchAcc [] 2 2 [PStr "python"; PStr "rust"])
                           (3 - 0)),
                    (process_batch real_platform "four.json" "out" "job-1"
                       sample_world).2))
    by (by vm_compute).
  assert (Hsuccess : succeeded (batch_summary (BatchAcc [] 2 2 [PStr "python"; PStr "rust"])
                                  (3 - 0)) = true) by reflexivity.
  split; [exact Hrun|]. split; [exact Hsuccess|].
  exact (vectors_created_is_files_processed real_platform "four.json" "out" "job-1"
           sample_world _ _ Hrun Hsuccess).
Defined.

(** ** main *)

(** Every run of [process_batch] reads the clock. *)
Lemma process_batch_reads_clock (P : platform) (batch_file output_dir job_id : string)
    (w : world) :
  (ticks w < ticks (process_batch P batch_file output_dir job_id w).2)%nat.
Proof.
  destruct (process_batch_total P batch_file output_dir job_id w)
    as (summary & w' & ok & -> & _ & _ & Hticks).
  done.
Qed.

Lemma main_missing (P : platform) (a : args) (w : world) :
  fs w !! args_batch_file a = None →
  main P a w =
    (inr 1, set_log (λ ls, ls ++ [(ERROR, "Batch file not found: "
                                          +:+ args_batch_file a)]) w).
Proof.
  intros Hmissing. unfold main, bind, os_path_exists. rewrite Hmissing.
  rewrite bool_decide_eq_false_2; [done|]. by intros [? ?].
Qed.

Lemma main_found (P : platform) (a : args) (w : world) summary w1 ok :
  is_Some (fs w !! args_batch_file a) →
  process_batch P (args_batch_file a) (args_output_dir a) (args_job_id a) w
    = (inr summary, w1) →
  dict_item summary "success" = inr (PBool ok) →
  main P a w =
    (inr (if ok then 0 else 1), set_stdout (λ out, out ++ [json_dumps P summary]) w1).
Proof.
  intros Hfound Hrun Hok. unfold main, bind, os_path_exists.
  rewrite bool_decide_eq_true_2; [|done]. simpl.
  rewrite Hrun. unfold print. rewrite Hok. simpl. by destruct ok.
Qed.

(** With a missing manifest the clock is not read, so [process_batch] has
    not run; the file system and the output are as they were. *)
Lemma main_missing_skips_batch (P : platform) (a : args) (w : world) :
  fs w !! args_batch_file a = None →
  ticks (main P a w).2 = ticks w
  ∧ fs (main P a w).2 = fs w
  ∧ stdout (main P a w).2 = stdout w
  ∧ calls (main P a w).2 = calls w.
Proof. intros Hmissing. by rewrite (main_missing _ _ _ Hmissing). Qed.

(** C7. When the manifest file does not exist, [main] logs an error and
    returns 1 without running [process_batch]: nothing but the log changes.
    Otherwise it runs [process_batch], prints the summary as one line and
    returns 0 when the summary's [success] is true, 1 when it is not. *)
Theorem main_exit_status (P : platform) (a : args) (w : world) :
  (fs w !! args_batch_file a = None →
     main P a w =
       (inr 1, set_log (λ ls, ls ++ [(ERROR, "Batch file not found: "
                                             +:+ args_batch_file a)]) w))
  ∧ (is_Some (fs w !! args_batch_file a) →
     ∃ summary w1 ok,
       process_batch P (args_batch_file a) (args_output_dir a) (args_job_id a) w
         = (inr summary, w1)
       ∧ dict_item summary "success" = inr (PBool ok)
       ∧ main P a w =
           (inr (if ok then 0 else 1),
            set_stdout (λ out, out ++ [json_dumps P summary]) w1)
       ∧ stdout (main P a w).2 = stdout w ++ [json_dumps P summary]).
Proof.
  split; [apply main_missing|].
  intros Hfound.
  destruct (process_batch_total P (args_batch_file a) (args_output_dir a)
              (args_job_id a) w) as (summary & w1 & ok & Hrun & Hok & Hout & _).
  exists summary, w1, ok. split; [done|]. split; [done|].
  rewrite (main_found _ _ _ _ _ _ Hfound Hrun Hok). split; [done|].
  simpl. by rewrite Hout.
Qed.

Lemma main_exit_status_witness :
  (fs sample_world !! "nope.json" = None
   ∧ main mock_platform (Args "nope.json" "out" "job-1") sample_world
     = (inr 1, set_log (λ ls, ls ++ [(ERROR, "Batch file not found: nope.json")])
                 sample_world))
  ∧ (is_Some (fs sample_world !! "batch.json")
     ∧ ∃ summary w1 ok,
         process_batch mock_platform "batch.json" "out" "job-1" sample_world
           = (inr summary, w1)
         ∧ dict_item summary "success" = inr (PBool ok)
         ∧ main mock_platform (Args "batch.json" "out" "job-1") sample_world
           = (inr (if ok then 0 else 1),
              set_stdout (λ out, out ++ [json_dumps mock_platform summary]) w1)
         ∧ stdout (main mock_platform (Args "batch.json" "out" "job-1") sample_world).2
           = stdout sample_world ++ [json_dumps mock_platform summary]).
Proof.
  assert (H1 : fs sample_world !! "nope.json" = None) by (by vm_compute).
  assert (H2 : is_Some (fs sample_world !! "batch.json")) by (vm_compute; by eexists).
  split.
  - split; [exact H1|].
    exact (proj1 (main_exit_status mock_platform (Args "nope.json" "out" "job-1")
                    sample_world) H1).
  - split; [exact H2|].
    exact (proj2 (main_exit_status mock_platform (Args "batch.json" "out" "job-1")
                    sample_world) H2).
Defined.

(** The three outcomes of [main] on examples: a successful batch, an empty
    manifest, a missing manifest. *)
Example main_exit_codes :
  (main mock_platform (Args "batch.json" "out" "job-1") sample_world).1 = inr 0
  ∧ (main mock_platform (Args "empty.json" "out" "job-1") sample_world).1 = inr 1
  ∧ (main mock_platform (Args "nope.json" "out" "job-1") sample_world).1 = inr 1
  ∧ (main mock_platform (Args "out" "out" "job-1") sample_world).1 = inr 1.
Proof. by vm_compute. Qed.

(** * Further properties *)

(** ** detect_language on paths without an extension *)

Lemma rfind_from_upper c s i :
  0 ≤ i → rfind_from c s i < i + Z.of_nat (String.length s).
Proof.
  revert i. induction s as [|a s IH]; intros i Hi; [simpl; lia|].
  cbn [rfind_from String.length]. specialize (IH (i + 1) ltac:(lia)).
  destruct (Z.leb_spec 0 (rfind_from c s (i + 1))); [lia|].
  destruct (Ascii.eqb a c); lia.
Qed.

Lemma rfind_sep_dir (dir rest : string) :
  dir = "" ∨ (∃ d, dir = d +:+ "/") →
  occurs "/" rest = false →
  rfind "/" (dir +:+ rest) + 1 = Z.of_nat (String.length dir).
Proof.
  intros Hdir Hrest. unfold rfind. rewrite rfind_from_app_absent; [|done].
  destruct Hdir as [->|[d ->]]; [done|].
  rewrite rfind_from_app_last; [|lia|done].
  rewrite length_app_string. simpl. lia.
Qed.

(** A last component without any dot has no extension. *)
Lemma splitext_no_dot (dir name : string) :
  dir = "" ∨ (∃ d, dir = d +:+ "/") →
  occurs "/" name = false →
  occurs "." name = false →
  splitext (dir +:+ name) = (dir +:+ name, "").
Proof.
  intros Hdir Hsep Hdot. unfold splitext. cbv zeta.
  pose proof (rfind_sep_dir dir name Hdir Hsep) as Hsepidx.
  assert (Hdotidx : rfind "." (dir +:+ name) < Z.of_nat (String.length dir)).
  { unfold rfind. rewrite rfind_from_app_absent; [|done].
    pose proof (rfind_from_upper "." dir 0). lia. }
  destruct (Z.ltb_spec (rfind "/" (dir +:+ name)) (rfind "." (dir +:+ name)))
    as [Hlt|_]; [lia|done].
Qed.

(** A last component whose only dot is its first character (a hidden file)
    has no extension. *)
Lemma splitext_hidden (dir name : string) :
  dir = "" ∨ (∃ d, dir = d +:+ "/") →
  occurs "/" name = false →
  occurs "." name = false →
  splitext (dir +:+ String "." name) = (dir +:+ String "." name, "").
Proof.
  intros Hdir Hsep Hdot. unfold splitext. cbv zeta.
  assert (Hsepidx : rfind "/" (dir +:+ String "." name) + 1
                    = Z.of_nat (String.length dir)).
  { apply rfind_sep_dir; [done|]. simpl. by rewrite Hsep. }
  assert (Hdotidx : rfind "." (dir +:+ String "." name) = Z.of_nat (String.length dir)).
  { unfold rfind. rewrite rfind_from_app_last; [lia|lia|done]. }
  rewrite Hdotidx.
  destruct (Z.ltb_spec (rfind "/" (dir +:+ String "." name))
              (Z.of_nat (String.length dir))) as [_|?]; [|done].
  replace (Z.to_nat (Z.of_nat (String.length dir)
                     - (rfind "/" (dir +:+ String "." name) + 1))) with 0%nat by lia.
  done.
Qed.

(** X2. A path whose last component has no dot ([Makefile], [a.py/readme])
    or has a single dot, in front ([.py], [.bashrc]), has no extension for
    [detect_language]: the result is ["unknown"], also when the characters
    after the leading dot spell a key of the table. *)
Theorem detect_language_no_extension (P : platform) (dir name : string) :
  dir = "" ∨ (∃ d, dir = d +:+ "/") →
  occurs "/" name = false →
  occurs "." name = false →
  detect_language P (dir +:+ name) = "unknown"
  ∧ detect_language P (dir +:+ String "." name) = "unknown".
Proof.
  intros Hdir Hsep Hdot. unfold detect_language.
  by rewrite (splitext_no_dot _ _ Hdir Hsep Hdot), (splitext_hidden _ _ Hdir Hsep Hdot).
Qed.

Lemma detect_language_no_extension_witness :
  ("src/" = "" ∨ (∃ d, "src/" = d +:+ "/"))
  ∧ occurs "/" "py" = false
  ∧ occurs "." "py" = false
  ∧ detect_language mock_platform ("src/" +:+ "py") = "unknown"
  ∧ detect_language mock_platform ("src/" +:+ String "." "py") = "unknown".
Proof.
  assert (Hdir : "src/" = "" ∨ (∃ d, "src/" = d +:+ "/")) by (right; by exists "src").
  split; [exact Hdir|]. split; [reflexivity|]. split; [reflexivity|].
  exact (detect_language_no_extension mock_platform "src/" "py" Hdir eq_refl eq_refl).
Defined.

Lemma detect_language_extension_witness :
  ("src/" = "" ∨ (∃ d, "src/" = d +:+ "/"))
  ∧ "M"%char ≠ "."%char
  ∧ occurs "/" (String "M" "ain") = false
  ∧ occurs "." "JAVA" = false
  ∧ occurs "/" "JAVA" = false
  ∧ In (lower mock_platform (String "." "JAVA"), "java") language_map
  ∧ detect_language mock_platform (("src/" +:+ String "M" "ain") +:+ String "." "JAVA") = "java".
Proof.
  assert (Hdir : "src/" = "" ∨ (∃ d, "src/" = d +:+ "/")) by (right; by exists "src").
  assert (Hc : "M"%char ≠ "."%char) by discriminate.
  assert (Hin : In (lower mock_platform (String "." "JAVA"), "java") language_map)
    by (vm_compute; tauto).
  repeat (split; [assumption || reflexivity|]).
  exact (proj1 (detect_language_extension mock_platform "src/" "M" "ain" "JAVA" "java"
                  Hdir Hc eq_refl eq_refl eq_refl) Hin).
Defined.

(** ** read_file_content: failures and the size limit *)

Lemma translate_newlines_cons (c : N) (t : text) :
  translate_newlines (c :: t) =
    if (c =? 13)%N
    then match t with
         | c' :: t'' => if (c' =? 10)%N then 10%N :: translate_newlines t''
                        else 10%N :: translate_newlines t
         | [] => [10%N]
         end
    else c :: translate_newlines t.
Proof.
  destruct (N.eqb_spec c 13) as [->|Hc].
  - destruct t as [|c' t'']; [done|].
    destruct (N.eqb_spec c' 10) as [->|Hc']; [done|].
    change (translate_newlines (13%N :: c' :: t''))
      with (match c' with
            | 10%N => 10%N :: translate_newlines t''
            | _ => 10%N :: translate_newlines (c' :: t'')
            end).
    destruct c' as [|p]; [done|].
    repeat (destruct p as [p|p|]; try done).
  - change (translate_newlines (c :: t))
      with (match c with
            | 13%N => match t with
                      | 10%N :: t'' => 10%N :: translate_newlines t''
                      | _ => 10%N :: translate_newlines t
                      end
            | _ => c :: translate_newlines t
            end).
    destruct c as [|p]; [done|].
    repeat (destruct p as [p|p|]; try done).
Qed.

(** Newline translation never lengthens a text. *)
Lemma translate_newlines_length (t : text) :
  (length (translate_newlines t) ≤ length t)%nat.
Proof.
  assert (H : ∀ n (t : text), (length t ≤ n)%nat →
                (length (translate_newlines t) ≤ length t)%nat).
  { intros n. induction n as [|n IH]; intros [|c u] Hn; simpl in Hn; try done; [lia|].
    rewrite translate_newlines_cons.
    destruct (c =? 13)%N.
    - destruct u as [|c' u'']; [simpl; lia|].
      destruct (c' =? 10)%N; cbn [length].
      + specialize (IH u'' ltac:(simpl in Hn; lia)). lia.
      + specialize (IH (c' :: u'') ltac:(cbn [length] in *; lia)).
        cbn [length] in IH. lia.
    - cbn [length]. specialize (IH u ltac:(lia)). lia. }
  by apply (H (length t)).
Qed.

Lemma latin1_nonexpanding : nonexpanding latin1_platform.
Proof. intros bs. simpl. unfold latin1_decode. by rewrite length_map. Qed.

(** The UTF-8 codec yields at most one character per byte. *)
Lemma utf8_nonexpanding : nonexpanding mock_platform.
Proof.
  assert (H : ∀ n (bs : list byte), (length bs ≤ n)%nat →
                (length (utf8_decode bs) ≤ length bs)%nat).
  { intros n. induction n as [|n IH]; intros [|b0 r0] Hn; cbn [length] in Hn;
      try done; [lia|].
    cbn [utf8_decode]. cbv zeta.
    repeat match goal with
           | |- context [if ?b then _ else _] => destruct b
           | |- context [match ?l with [] => _ | _ :: _ => _ end] =>
               is_var l; destruct l
           end;
      cbn [length] in *;
      repeat match goal with
             | |- context [utf8_decode ?r] =>
                 lazymatch goal with
                 | _ : (length (utf8_decode r) ≤ _)%nat |- _ => fail
                 | _ => pose proof (IH r ltac:(cbn [length]; lia))
                 end
             end;
      cbn [length] in *; lia. }
  intros bs. by apply (H (length bs)).
Qed.

(** X3. When the file cannot be read (it does not exist, it is a directory,
    or opening it fails), [read_file_content] returns the empty text
    without raising, changes nothing but the log, and the log ends with an
    error line that names the file. *)
Theorem read_file_content_io_failure (P : platform) (file_path : string) (max_size : Z)
    (w : world) :
  fs w !! file_path = None ∨ fs w !! file_path = Some Dir
  ∨ is_Some (fault P OpOpenRead file_path) →
  ∃ w' e earlier,
    read_file_content P file_path max_size w = (inr [], w')
    ∧ same_but_log w w'
    ∧ log w' = log w ++ earlier
                 ++ [(ERROR, "Error reading file " +:+ file_path +:+ ": " +:+ exn_str e)].
Proof.
  intros Hcause.
  unfold read_file_content, try_except, bind, os_path_getsize, logger.
  destruct (fs w !! file_path) as [[data|]|] eqn:Hp.
  - destruct Hcause as [?|[?|[e He]]]; [done|done|].
    destruct (max_size <? Z.of_nat (length data)); simpl;
      unfold open_read_text; simpl; rewrite He; simpl.
    + eexists _, e, [_]. repeat split. simpl. rewrite <- app_assoc. reflexivity.
    + eexists _, e, []. by repeat split.
  - destruct (max_size <? 4096); simpl; unfold open_read_text; simpl; rewrite ?Hp;
      destruct (fault P OpOpenRead file_path) as [e|]; simpl.
    + eexists _, e, [_]. repeat split. simpl. rewrite <- app_assoc. reflexivity.
    + eexists _, (Exn "IsADirectoryError" ("Is a directory: " +:+ file_path)), [_].
      repeat split. simpl. rewrite <- app_assoc. reflexivity.
    + eexists _, e, []. by repeat split.
    + eexists _, (Exn "IsADirectoryError" ("Is a directory: " +:+ file_path)), [].
      by repeat split.
  - simpl.
    eexists _, (Exn "FileNotFoundError" ("No such file or directory: " +:+ file_path)), [].
    by repeat split.
Qed.

Lemma read_file_content_io_failure_witness :
  (fs sample_world !! "missing.rs" = None ∨ fs sample_world !! "missing.rs" = Some Dir
   ∨ is_Some (fault mock_platform OpOpenRead "missing.rs"))
  ∧ ∃ w' e earlier,
      read_file_content mock_platform "missing.rs" (1024 * 1024) sample_world
        = (inr [], w')
      ∧ same_but_log sample_world w'
      ∧ log w' = log sample_world ++ earlier
                   ++ [(ERROR, "Error reading file " +:+ "missing.rs" +:+ ": "
                               +:+ exn_str e)].
Proof.
  assert (Hcause : fs sample_world !! "missing.rs" = None
                   ∨ fs sample_world !! "missing.rs" = Some Dir
                   ∨ is_Some (fault mock_platform OpOpenRead "missing.rs"))
    by (left; by vm_compute).
  split; [exact Hcause|].
  exact (read_file_content_io_failure mock_platform "missing.rs" (1024 * 1024)
           sample_world Hcause).
Defined.

(** X4. Under a codec that yields at most one character per byte, and with
    a limit that is not negative, the text that [read_file_content] returns
    never has more than [max_size] characters, whatever the path: the limit
    bounds the size of the content kept in memory. *)
Theorem read_file_content_bounded (P : platform) (file_path : string) (max_size : Z)
    (w : world) :
  nonexpanding P →
  0 ≤ max_size →
  ∃ content w',
    read_file_content P file_path max_size w = (inr content, w')
    ∧ Z.of_nat (length content) ≤ max_size.
Proof.
  intros Hcodec Hmax.
  destruct (read_file_content_total P file_path max_size w)
    as (content & w' & Hread & _).
  exists content, w'. split; [done|].
  destruct (fs w !! file_path) as [[data|]|] eqn:Hp.
  - destruct (fault P OpOpenRead file_path) as [e|] eqn:Hfault.
    + pose proof (read_file_content_unreadable P file_path max_size w
                    (or_intror (or_intror (ex_intro _ e Hfault)))) as Hempty.
      rewrite Hread in Hempty. injection Hempty as ->. simpl. lia.
    + rewrite (read_file_content_file P _ max_size _ _ Hp Hfault) in Hread.
      pose proof (translate_newlines_length (decode P data)) as Hnl.
      pose proof (Hcodec data) as Hdec.
      destruct (Z.ltb_spec max_size (Z.of_nat (length data))).
      * injection Hread as <- _. simpl.
        destruct (Z.ltb_spec max_size 0); [lia|]. rewrite length_take. lia.
      * injection Hread as <- _. unfold text_of. lia.
  - pose proof (read_file_content_unreadable P file_path max_size w
                  (or_intror (or_introl Hp))) as Hempty.
    rewrite Hread in Hempty. injection Hempty as ->. simpl. lia.
  - pose proof (read_file_content_unreadable P file_path max_size w
                  (or_introl Hp)) as Hempty.
    rewrite Hread in Hempty. injection Hempty as ->. simpl. lia.
Qed.

Lemma read_file_content_bounded_witness :
  nonexpanding mock_platform
  ∧ 0 ≤ 2
  ∧ ∃ content w',
      read_file_content mock_platform "cafe.txt" 2 sample_world = (inr content, w')
      ∧ Z.of_nat (length content) ≤ 2.
Proof.
  assert (Hmax : 0 ≤ 2) by lia.
  split; [exact utf8_nonexpanding|]. split; [exact Hmax|].
  exact (read_file_content_bounded mock_platform "cafe.txt" 2 sample_world
           utf8_nonexpanding Hmax).
Defined.

Lemma read_file_content_negative_limit_witness :
  fs sample_world !! "a.py" = Some (File (list_byte_of_string "import os"))
  ∧ fault mock_platform OpOpenRead "a.py" = None
  ∧ -1 < 0
  ∧ (read_file_content mock_platform "a.py" (-1) sample_world).1
    = inr (text_of mock_platform (list_byte_of_string "import os")).
Proof.
  assert (Hfile : fs sample_world !! "a.py" = Some (File (list_byte_of_string "import os")))
    by (by vm_compute).
  assert (Hneg : -1 < 0) by lia.
  split; [exact Hfile|]. split; [reflexivity|]. split; [exact Hneg|].
  exact (read_file_content_negative_limit mock_platform "a.py" (-1) sample_world _
           Hfile eq_refl Hneg).
Defined.

Lemma read_file_content_single_byte_witness :
  fs sample_world !! "a.py" = Some (File (list_byte_of_string "import os"))
  ∧ fault latin1_platform OpOpenRead "a.py" = None
  ∧ decode latin1_platform = latin1_decode
  ∧ (x0d ∉ list_byte_of_string "import os")
  ∧ 0 ≤ 6 < Z.of_nat (length (list_byte_of_string "import os"))
  ∧ (read_file_content latin1_platform "a.py" 6 sample_world).1
    = inr (text_of latin1_platform (firstn (Z.to_nat 6) (list_byte_of_string "import os")))
  ∧ length (firstn (Z.to_nat 6) (list_byte_of_string "import os")) = Z.to_nat 6.
Proof.
  assert (Hfile : fs sample_world !! "a.py" = Some (File (list_byte_of_string "import os")))
    by (by vm_compute).
  assert (Hcr : x0d ∉ list_byte_of_string "import os").
  { vm_compute. intros H.
    repeat (apply elem_of_cons in H as [H|H]; [discriminate H|]).
    by apply elem_of_nil in H. }
  assert (Hrange : 0 ≤ 6 < Z.of_nat (length (list_byte_of_string "import os")))
    by (by vm_compute).
  split; [exact Hfile|]. split; [reflexivity|]. split; [reflexivity|].
  split; [exact Hcr|]. split; [exact Hrange|].
  exact (read_file_content_single_byte latin1_platform "a.py" 6 sample_world _
           Hfile eq_refl eq_refl Hcr Hrange).
Defined.

(** ** vectorize_content: the shape of the outcome *)

(** X7. [vectorize_content] never raises and changes nothing but the log.
    Its outcome has a Boolean ["success"].  A successful outcome has a
    [vector_size] that is not negative, a [vector_type] and no ["error"];
    it has a ["vector"] exactly when the type is ["tfidf"], and then
    [vector_size] is the length of the vector.  A failed outcome carries the
    message of the library's exception as ["error"], has no vector, and the
    failure is logged. *)
Theorem vectorize_content_outcome (P : platform) (content : text) (file_path : string)
    (w : world) :
  ∃ d w' ok,
    vectorize_content P content file_path w = (inr (PDict d), w')
    ∧ same_but_log w w'
    ∧ dict_lookup d "success" = Some (PBool ok)
    ∧ (ok = true →
       ∃ n kind,
         dict_lookup d "vector_size" = Some (PInt n) ∧ 0 ≤ n
         ∧ dict_lookup d "vector_type" = Some (PStr kind)
         ∧ dict_lookup d "error" = None
         ∧ ((dict_lookup d "vector" = None ∧ kind = "mock")
            ∨ ∃ v, dict_lookup d "vector" = Some (PList (map PFloat v))
                   ∧ Z.of_nat (length v) = n ∧ kind = "tfidf"
                   ∧ tfidf P content = inr v))
    ∧ (ok = false →
       ∃ e, tfidf P content = inl e
            ∧ dict_lookup d "error" = Some (PStr (exn_str e))
            ∧ dict_lookup d "vector" = None
            ∧ log w' = log w ++ [(ERROR, "Error vectorizing " +:+ file_path +:+ ": "
                                         +:+ exn_str e)]).
Proof.
  unfold vectorize_content.
  destruct (PYTHON_DEPS_AVAILABLE P); simpl.
  - unfold try_except, bind, lift. destruct (tfidf P content) as [e|v]; simpl.
    + eexists _, _, false. repeat split; try done. intros _. by exists e.
    + eexists _, _, true. repeat split; try done. intros _.
      eexists _, _. repeat split; try done; [lia|]. right. by exists v.
  - eexists _, _, true. repeat split; try done. intros _.
    eexists _, _. repeat split; try done. by left.
Qed.

(** ** process_file: results and the file system *)

Section ProcessFileCases.
Context (P : platform).

(** Every run of [process_file], by cases: a failure, which leaves the file
    system as it was or, when the write itself raised, leaves the artifact
    empty; or a success, which writes the record of the file under the
    artifact's name. *)
Lemma process_file_cases file_path output_dir w :
  ∃ r w',
    process_file P file_path output_dir w = (inr r, w')
    ∧ ((∃ msg, r = PDict [("success", PBool false); ("error", PStr msg)]
               ∧ (fs w' = fs w
                  ∨ fs w' = <[output_filename_of P file_path output_dir := File []]> (fs w)))
       ∨ (∃ vector_result now,
            r = PDict [("success", PBool true);
                       ("language", PStr (detect_language P file_path));
                       ("output_file", PStr (output_filename_of P file_path output_dir))]
            ∧ succeeded vector_result = true
            ∧ fs w' = <[output_filename_of P file_path output_dir :=
                          File (encode P (json_dumps P
                            (PDict [("file", PStr file_path);
                                    ("language", PStr (detect_language P file_path));
                                    ("timestamp", PFloat now);
                                    ("vectorization", vector_result)])))]> (fs w))).
Proof.
  destruct (fs w !! file_path) as [en|] eqn:Hp.
  2:{ rewrite (process_file_missing _ _ _ _ Hp). eexists _, _. split; [done|].
      left. eexists. split; [done|]. by left. }
  assert (Hsome : is_Some (fs w !! file_path)) by (by rewrite Hp).
  destruct (read_file_content_total P file_path (1024 * 1024)
              (set_calls (λ cs, cs ++ [file_path]) w))
    as (content & w1 & Hread & Hfs1 & _).
  simpl in Hfs1.
  destruct content as [|c content].
  { rewrite (process_file_empty _ _ _ _ _ Hsome Hread). eexists _, _. split; [done|].
    left. eexists. split; [done|]. by left. }
  destruct (vectorize_content_total P (c :: content) file_path w1)
    as (vr & w2 & ok & Hvec & (Hfs2 & _) & Hok).
  destruct (succeeded vr) eqn:Hsucc.
  2:{ destruct (vectorize_content_failure P _ _ _ _ _ Hvec Hsucc) as (e & _ & _ & Hvr).
      rewrite (process_file_vectorize_failure _ _ _ _ _ _ _ _ Hsome Hread
                 ltac:(discriminate) Hvec Hsucc).
      eexists _, _. split; [done|]. left. eexists. split; [exact Hvr|].
      left. by rewrite Hfs2, Hfs1. }
  assert (Hok' : ok = true) by (unfold succeeded in Hsucc; by rewrite Hok in Hsucc).
  subst ok.
  unfold process_file, bind, enter_process_file, os_path_exists. simpl.
  rewrite bool_decide_eq_true_2; [|done]. simpl.
  unfold try_except, bind. rewrite Hread, Hvec. unfold lift at 1. rewrite Hok. simpl.
  unfold open_json_dump, logger. simpl.
  fold (output_filename_of P file_path output_dir).
  set (fname := output_filename_of P file_path output_dir).
  destruct (fs w2 !! fname) as [[?|]|];
    [destruct (fault P OpOpenWrite fname); [|destruct (fault P OpWrite fname)]
    | |destruct (fault P OpOpenWrite fname); [|destruct (fault P OpWrite fname)]];
    simpl; eexists _, _; (split; [reflexivity|]); simpl; rewrite ?Hfs2, ?Hfs1;
    first [ left; eexists; split; [reflexivity|]; (by left) || (by right)
          | right; exists vr, (clock P (ticks w2)); by repeat split ].
Qed.
End ProcessFileCases.

(** X8. Every call of [process_file] returns, and its result has one of two
    shapes: [success = True] with the detected language and the name of the
    artifact, or [success = False] with an error message. *)
Theorem process_file_result_shape (P : platform) (file_path output_dir : string)
    (w : world) :
  ∃ r w',
    process_file P file_path output_dir w = (inr r, w')
    ∧ (r = PDict [("success", PBool true);
                  ("language", PStr (detect_language P file_path));
                  ("output_file", PStr (output_filename_of P file_path output_dir))]
       ∨ ∃ msg, r = PDict [("success", PBool false); ("error", PStr msg)]).
Proof.
  destruct (process_file_cases P file_path output_dir w)
    as (r & w' & Hrun & [(msg & -> & _)|(vr & now & -> & _)]);
    eexists _, w'; (split; [exact Hrun|]); [right; by exists msg|by left].
Qed.

(** X9. A successful result is backed by the artifact: the file named by
    ["output_file"] exists after the call and holds the record of this very
    path, with its language and a successful vectorization outcome. *)
Theorem process_file_success_artifact (P : platform) (file_path output_dir : string)
    (w : world) (r : pyval) (w' : world) :
  process_file P file_path output_dir w = (inr r, w') →
  succeeded r = true →
  dict_item r "output_file" = inr (PStr (output_filename_of P file_path output_dir))
  ∧ ∃ vector_result now,
      succeeded vector_result = true
      ∧ fs w' !! output_filename_of P file_path output_dir
        = Some (artifact_of P file_path now vector_result).
Proof.
  intros Hrun Hsucc.
  destruct (process_file_cases P file_path output_dir w)
    as (r0 & w0 & Hrun0 & Hcases).
  rewrite Hrun in Hrun0. injection Hrun0 as <- <-.
  destruct Hcases as [(msg & -> & _)|(vr & now & -> & Hvr & Hfs)]; [done|].
  split; [done|]. exists vr, now. split; [done|].
  rewrite Hfs. apply lookup_insert_eq.
Qed.

Lemma process_file_success_artifact_witness :
  process_file mock_platform "a.py" "out" sample_world
    = (inr (PDict [("success", PBool true); ("language", PStr "python");
                   ("output_file", PStr "out/4021_a.py.vec.json")]),
       (process_file mock_platform "a.py" "out" sample_world).2)
  ∧ succeeded (PDict [("success", PBool true); ("language", PStr "python");
                      ("output_file", PStr "out/4021_a.py.vec.json")]) = true
  ∧ ∃ vector_result now,
      succeeded vector_result = true
      ∧ fs (process_file mock_platform "a.py" "out" sample_world).2
          !! output_filename_of mock_platform "a.py" "out"
        = Some (artifact_of mock_platform "a.py" now vector_result).
Proof.
  assert (Hrun : process_file mock_platform "a.py" "out" sample_world
                 = (inr (PDict [("success", PBool true); ("language", PStr "python");
                                ("output_file", PStr "out/4021_a.py.vec.json")]),
                    (process_file mock_platform "a.py" "out" sample_world).2))
    by (by vm_compute).
  split; [exact Hrun|]. split; [reflexivity|].
  exact (proj2 (process_file_success_artifact mock_platform "a.py" "out" sample_world
                  _ _ Hrun eq_refl)).
Defined.


(** X10. [process_file] touches one path at most: whatever the outcome,
    every path other than the artifact's name is after the call what it was
    before; no other file is created, changed or removed. *)
Theorem process_file_frame (P : platform) (file_path output_dir : string)
    (w : world) (q : string) :
  q ≠ output_filename_of P file_path output_dir →
  fs (process_file P file_path output_dir w).2 !! q = fs w !! q.
Proof.
  intros Hq.
  destruct (process_file_cases P file_path output_dir w) as (r & w' & Hrun & Hcases).
  rewrite Hrun. simpl.
  destruct Hcases as [(msg & _ & [Hfs|Hfs])|(vector_result & now & _ & _ & Hfs)];
    rewrite Hfs; [reflexivity| |]; by apply lookup_insert_ne.
Qed.

Lemma process_file_frame_witness :
  "a.py" ≠ output_filename_of mock_platform "a.py" "out"
  ∧ fs (process_file mock_platform "a.py" "out" sample_world).2 !! "a.py"
    = fs sample_world !! "a.py".
Proof.
  assert (Hq : "a.py" ≠ output_filename_of mock_platform "a.py" "out")
    by (by vm_compute).
  split; [exact Hq|].
  exact (process_file_frame mock_platform "a.py" "out" sample_world "a.py" Hq).
Defined.

(** X11. Two paths with the same base name whose hashes fall in the same
    bucket share one artifact name: when both are processed successfully,
    one after the other, both results report the same ["output_file"], and
    the file system ends up as if only the second had been processed; the
    record of the first is overwritten. *)
Theorem process_file_collision (P : platform) (path1 path2 output_dir : string)
    (w : world) (r1 : pyval) (w1 : world) (r2 : pyval) (w2 : world) :
  basename path1 = basename path2 →
  py_hash P path1 `mod` 10000 = py_hash P path2 `mod` 10000 →
  process_file P path1 output_dir w = (inr r1, w1) →
  succeeded r1 = true →
  process_file P path2 output_dir w1 = (inr r2, w2) →
  succeeded r2 = true →
  dict_item r1 "output_file" = dict_item r2 "output_file"
  ∧ ∃ vector_result now,
      fs w2 = <[output_filename_of P path2 output_dir :=
                  artifact_of P path2 now vector_result]> (fs w).
Proof.
  intros Hbase Hbucket Hrun1 Hsucc1 Hrun2 Hsucc2.
  assert (Hname : output_filename_of P path1 output_dir
                  = output_filename_of P path2 output_dir).
  { unfold output_filename_of. by rewrite Hbase, Hbucket. }
  destruct (process_file_cases P path1 output_dir w) as (r & w' & Hrun & Hcases).
  rewrite Hrun1 in Hrun. injection Hrun as <- <-.
  destruct Hcases as [(msg & -> & _)|(vr1 & now1 & -> & _ & Hfs1)]; [done|].
  destruct (process_file_cases P path2 output_dir w1) as (r & w' & Hrun & Hcases).
  rewrite Hrun2 in Hrun. injection Hrun as <- <-.
  destruct Hcases as [(msg & -> & _)|(vr2 & now2 & -> & _ & Hfs2)]; [done|].
  split; [simpl; by rewrite Hname|].
  exists vr2, now2. rewrite Hfs2, Hfs1, Hname. apply insert_insert_eq.
Qed.

Lemma process_file_collision_witness :
  basename "a/x.py" = basename "b/x.py"
  ∧ py_hash mock_platform "a/x.py" `mod` 10000 = py_hash mock_platform "b/x.py" `mod` 10000
  ∧ process_file mock_platform "a/x.py" "out" twin_world
    = (inr (PDict [("success", PBool true); ("language", PStr "python");
                   ("output_file", PStr "out/9859_x.py.vec.json")]),
       (process_file mock_platform "a/x.py" "out" twin_world).2)
  ∧ process_file mock_platform "b/x.py" "out"
      (process_file mock_platform "a/x.py" "out" twin_world).2
    = (inr (PDict [("success", PBool true); ("language", PStr "python");
                   ("output_file", PStr "out/9859_x.py.vec.json")]),
       (process_file mock_platform "b/x.py" "out"
          (process_file mock_platform "a/x.py" "out" twin_world).2).2)
  ∧ ∃ vector_result now,
      fs (process_file mock_platform "b/x.py" "out"
            (process_file mock_platform "a/x.py" "out" twin_world).2).2
      = <[output_filename_of mock_platform "b/x.py" "out" :=
            artifact_of mock_platform "b/x.py" now vector_result]> (fs twin_world).
Proof.
  assert (Hbase : basename "a/x.py" = basename "b/x.py") by reflexivity.
  assert (Hbucket : py_hash mock_platform "a/x.py" `mod` 10000
                    = py_hash mock_platform "b/x.py" `mod` 10000) by reflexivity.
  assert (Hrun1 : process_file mock_platform "a/x.py" "out" twin_world
                  = (inr (PDict [("success", PBool true); ("language", PStr "python");
                                 ("output_file", PStr "out/9859_x.py.vec.json")]),
                     (process_file mock_platform "a/x.py" "out" twin_world).2))
    by (by vm_compute).
  assert (Hrun2 : process_file mock_platform "b/x.py" "out"
                    (process_file mock_platform "a/x.py" "out" twin_world).2
                  = (inr (PDict [("success", PBool true); ("language", PStr "python");
                                 ("output_file", PStr "out/9859_x.py.vec.json")]),
                     (process_file mock_platform "b/x.py" "out"
                        (process_file mock_platform "a/x.py" "out" twin_world).2).2))
    by (by vm_compute).
  split; [exact Hbase|]. split; [exact Hbucket|]. split; [exact Hrun1|].
  split; [exact Hrun2|].
  exact (proj2 (process_file_collision mock_platform "a/x.py" "b/x.py" "out" twin_world
                  _ _ _ _ Hbase Hbucket Hrun1 eq_refl Hrun2 eq_refl)).
Defined.

(** ** process_batch: what a run can change *)

Lemma path_join_cases (a b : string) :
  path_join a b = b ∨ path_join a b = a +:+ b ∨ path_join a b = a +:+ "/" +:+ b.
Proof.
  unfold path_join.
  destruct (String.eqb a ""), (String.eqb (slice_from a (Z.of_nat (String.length a) - 1)) "/");
    destruct b as [|c b']; try tauto;
    destruct c as [[] [] [] [] [] [] [] []]; tauto.
Qed.

(** The name of an artifact ends with [.vec.json]. *)
Lemma output_filename_suffix (P : platform) (file_path output_dir : string) :
  ends_with ".vec.json" (output_filename_of P file_path output_dir).
Proof.
  unfold output_filename_of.
  set (stem := pretty (py_hash P file_path `mod` 10000) +:+ "_" +:+ basename file_path).
  replace (pretty (py_hash P file_path `mod` 10000) +:+ "_" +:+ basename file_path
           +:+ ".vec.json") with (stem +:+ ".vec.json")
    by (unfold stem; by rewrite !string_app_assoc).
  destruct (path_join_cases output_dir (stem +:+ ".vec.json")) as [->|[->| ->]].
  - by exists stem.
  - exists (output_dir +:+ stem). by rewrite string_app_assoc.
  - exists (output_dir +:+ "/" +:+ stem). by rewrite !string_app_assoc.
Qed.





(** The directories on the way are made: a run with the output directory
    [new/out] in a file system without [new] leaves both directories, the
    artifact in the inner one, and the input as it was. *)
Example process_batch_makes_ancestors :
  fs sample_world !! "new" = None
  ∧ fs (process_batch mock_platform "batch.json" "new/out" "job-1" sample_world).2
    = <["new/out/4021_a.py.vec.json" := File (list_byte_of_string "{...}")]>
      (<["new/out" := Dir]> (<["new" := Dir]> sample_fs)).
Proof. by vm_compute. Qed.

(** ** process_batch and main: which summary, which exit status *)

Section BatchOutcome.
Context (P : platform) (batch_file output_dir job_id : string).

(** When the two steps before the loop succeed, the output directory was
    there or could be created and the manifest is a file that parses. *)
Lemma process_batch_loaded_inv (w w1 w2 : world) batch_data :
  os_makedirs P output_dir (set_ticks S w) = (inr tt, w1) →
  open_json_load P batch_file w1 = (inr batch_data, w2) →
  can_makedirs P output_dir w ∧ manifest_is P batch_file w batch_data.
Proof.
  intros Hmkdir Hload.
  destruct (os_makedirs_start P output_dir w) as (Hval & _ & _ & _ & _ & Hfs).
  specialize (Hfs batch_file). rewrite Hmkdir in Hval, Hfs. cbn [fst snd] in Hval, Hfs.
  split; [done|].
  revert Hload. unfold open_json_load, manifest_is.
  destruct (fault P OpOpenRead batch_file) eqn:Hfault; [done|].
  destruct (fs w1 !! batch_file) as [[data|]|] eqn:Hfile; [|done|done].
  intros [= Hload _]. exists data.
  destruct Hfs as [Heq|(_ & Hdir & _)]; [|done]. by rewrite <- Heq.
Qed.

(** The summary of a run whose preparation fails is the error summary. *)
Lemma process_batch_error_cases (w : world) :
  ¬ (∃ batch_data, can_makedirs P output_dir w ∧ manifest_is P batch_file w batch_data) →
  ∃ e w0,
    process_batch P batch_file output_dir job_id w
      = batch_error_run P e (clock P (ticks w)) w0
    ∧ calls w0 = calls w ∧ stdout w0 = stdout w ∧ ticks w0 = S (ticks w).
Proof.
  intros Hnot. rewrite process_batch_unfold. cbv zeta.
  destruct (os_makedirs_start P output_dir w) as (_ & Htk & _ & Hout & Hcalls & _).
  destruct (os_makedirs P output_dir (set_ticks S w)) as [[e|[]] w1] eqn:Hmkdir;
    simpl in Htk, Hout, Hcalls.
  { by exists e, w1. }
  pose proof (open_json_load_same P batch_file w1) as Hld.
  destruct (open_json_load P batch_file w1) as [[e|batch_data] w2] eqn:Hload;
    simpl in Hld; subst w2.
  { by exists e, w1. }
  exfalso. apply Hnot. exists batch_data.
  by apply (process_batch_loaded_inv w w1 w1).
Qed.

(** The summary reports success exactly when the manifest loads with a
    list that is not empty. *)
Lemma process_batch_success_iff (w : world) summary w' :
  process_batch P batch_file output_dir job_id w = (inr summary, w') →
  succeeded summary = true
  ↔ ∃ batch_data, can_makedirs P output_dir w
                  ∧ manifest_is P batch_file w batch_data
                  ∧ dict_get batch_data "files" [] ≠ [].
Proof.
  intros Hrun. split.
  - intros Hsucc. revert Hrun. rewrite process_batch_unfold. cbv zeta.
    destruct (os_makedirs P output_dir (set_ticks S w)) as [[e|[]] w1] eqn:Hmkdir.
    { intros [= <- _]. done. }
    destruct (open_json_load P batch_file w1) as [[e|batch_data] w2] eqn:Hload.
    { intros [= <- _]. done. }
    destruct (process_batch_loaded_inv _ _ _ _ Hmkdir Hload) as [Hdir Hmanifest].
    destruct (dict_get batch_data "files" []) as [|file_path rest] eqn:Hfiles.
    { intros [= <- _]. done. }
    intros _. exists batch_data. by rewrite Hfiles.
  - intros (batch_data & Hdir & Hmanifest & Hfiles). revert Hrun.
    destruct (process_batch_preamble P batch_file output_dir w _ Hdir Hmanifest)
      as (w1 & Hmk & Hload & _).
    rewrite process_batch_unfold. cbv zeta. rewrite Hmk, Hload.
    destruct (dict_get batch_data "files" []) as [|file_path rest]; [done|].
    run_batch_loop P output_dir as (rs & w3 & langs & -> & _).
    by intros [= <- _].
Qed.
End BatchOutcome.

(** X13. When the output directory cannot be made or the manifest cannot be
    loaded (it is missing, a directory, unreadable or malformed),
    [process_batch] does not raise: it returns [success = False] with the
    message ["Batch processing error: "] followed by the text of the
    exception and [files_processed = 0], logs the error, and invokes
    [process_file] on nothing. *)
Theorem process_batch_load_failure (P : platform) (batch_file output_dir job_id : string)
    (w : world) :
  ¬ (∃ batch_data, can_makedirs P output_dir w ∧ manifest_is P batch_file w batch_data) →
  ∃ e summary w',
    process_batch P batch_file output_dir job_id w = (inr summary, w')
    ∧ dict_item summary "success" = inr (PBool false)
    ∧ dict_item summary "message"
      = inr (PStr ("Batch processing error: " +:+ exn_str e))
    ∧ dict_item summary "files_processed" = inr (PInt 0)
    ∧ last (log w') = Some (ERROR, "Error processing batch: " +:+ exn_str e)
    ∧ calls w' = calls w
    ∧ stdout w' = stdout w.
Proof.
  intros Hnot.
  destruct (process_batch_error_cases P batch_file output_dir job_id w Hnot)
    as (e & w0 & -> & Hcalls & Hout & _).
  eexists e, _, _. split; [reflexivity|]. simpl.
  repeat split; try done. apply last_snoc.
Qed.

Lemma process_batch_load_failure_witness :
  ¬ (∃ batch_data, can_makedirs mock_platform "out" sample_world
                   ∧ manifest_is mock_platform "out" sample_world batch_data)
  ∧ ∃ e summary w',
      process_batch mock_platform "out" "out" "job-1" sample_world = (inr summary, w')
      ∧ dict_item summary "success" = inr (PBool false)
      ∧ dict_item summary "message"
        = inr (PStr ("Batch processing error: " +:+ exn_str e))
      ∧ dict_item summary "files_processed" = inr (PInt 0)
      ∧ last (log w') = Some (ERROR, "Error processing batch: " +:+ exn_str e)
      ∧ calls w' = calls sample_world
      ∧ stdout w' = stdout sample_world.
Proof.
  assert (Hnot : ¬ (∃ batch_data, can_makedirs mock_platform "out" sample_world
                      ∧ manifest_is mock_platform "out" sample_world batch_data)).
  { intros (batch_data & _ & data & Hfile & _). vm_compute in Hfile. discriminate Hfile. }
  split; [exact Hnot|].
  exact (process_batch_load_failure mock_platform "out" "out" "job-1" sample_world Hnot).
Defined.

(** X14. [main] returns the exit status 0 exactly when the output directory
    is there or can be created and the manifest loads with a list of files
    that is not empty; what happens to the individual files does not
    matter. *)
Theorem main_exit_zero_iff (P : platform) (a : args) (w : world) :
  (main P a w).1 = inr 0
  ↔ ∃ batch_data,
      can_makedirs P (args_output_dir a) w
      ∧ manifest_is P (args_batch_file a) w batch_data
      ∧ dict_get batch_data "files" [] ≠ [].
Proof.
  destruct (fs w !! args_batch_file a) as [en|] eqn:Hfile.
  - assert (Hfound : is_Some (fs w !! args_batch_file a)) by (by rewrite Hfile).
    destruct (process_batch_total P (args_batch_file a) (args_output_dir a)
                (args_job_id a) w) as (summary & w1 & ok & Hrun & Hok & _).
    rewrite (main_found _ _ _ _ _ _ Hfound Hrun Hok). simpl.
    rewrite <- (process_batch_success_iff _ _ _ _ _ _ _ Hrun).
    unfold succeeded. rewrite Hok. simpl. by destruct ok.
  - rewrite (main_missing _ _ _ Hfile). simpl. split; [done|].
    intros (batch_data & _ & (data & Hdata & _) & _). congruence.
Qed.

Lemma main_exit_zero_iff_witness :
  (∃ batch_data,
     can_makedirs real_platform "out" sample_world
     ∧ manifest_is real_platform "batch.json" sample_world batch_data
     ∧ dict_get batch_data "files" [] ≠ [])
  ∧ (main real_platform (Args "batch.json" "out" "job-1") sample_world).1 = inr 0.
Proof.
  assert (H : ∃ batch_data,
                can_makedirs real_platform "out" sample_world
                ∧ manifest_is real_platform "batch.json" sample_world batch_data
                ∧ dict_get batch_data "files" [] ≠ []).
  { exists [("files", ["a.py"; "missing.rs"])].
    split; [by vm_compute|].
    split; [eexists; split; [by vm_compute|split; by vm_compute]|done]. }
  split; [exact H|].
  exact (proj2 (main_exit_zero_iff real_platform (Args "batch.json" "out" "job-1")
                  sample_world) H).
Defined.

(** ** process_batch: batches in which nothing can be read *)

Section AllUnreadable.
Context (P : platform) (output_dir : string).

Lemma process_file_unreadable file_path w :
  fs w !! file_path = None ∨ fs w !! file_path = Some Dir →
  ∃ r w',
    process_file P file_path output_dir w = (inr r, w')
    ∧ dict_item r "success" = inr (PBool false)
    ∧ fs w' = fs w.
Proof.
  intros [Hp|Hp].
  - rewrite (process_file_missing _ _ _ _ Hp). by eexists _, _.
  - assert (Hsome : is_Some (fs w !! file_path)) by (by rewrite Hp).
    destruct (read_file_content_total P file_path (1024 * 1024)
                (set_calls (λ cs, cs ++ [file_path]) w))
      as (content & w1 & Hread & Hfs1 & _).
    pose proof (read_file_content_unreadable P file_path (1024 * 1024)
                  (set_calls (λ cs, cs ++ [file_path]) w)
                  (or_intror (or_introl Hp))) as Hempty.
    rewrite Hread in Hempty. injection Hempty as ->.
    rewrite (process_file_empty _ _ _ _ _ Hsome Hread). by eexists _, _.
Qed.

Lemma batch_loop_all_unreadable (files : list string) (acc : batch_acc) (w : world) :
  (∀ p, In p files → fs w !! p = None ∨ fs w !! p = Some Dir) →
  ∃ rs w',
    batch_loop P output_dir files acc w
      = (inr (BatchAcc (results acc ++ rs) (processed_count acc)
                (failed_count acc + Z.of_nat (length files))
                (languages_detected acc)), w')
    ∧ fs w' = fs w.
Proof.
  revert acc w. induction files as [|file_path rest IH]; intros acc w Hall.
  - exists [], w. simpl. rewrite app_nil_r, Z.add_0_r. by destruct acc.
  - destruct (process_file_unreadable file_path w (Hall _ (or_introl eq_refl)))
      as (r & w1 & Hrun & Hok & Hfs1).
    cbn [batch_loop]. rewrite (bind_inr _ _ _ _ _ Hrun).
    rewrite Hok. unfold lift at 1. unfold bind at 1, ret at 1. cbn [truthy].
    destruct (IH (BatchAcc (results acc ++ [r]) (processed_count acc)
                    (failed_count acc + 1) (languages_detected acc)) w1)
      as (rs & w' & Hloop & Hfs').
    { intros p Hp. rewrite Hfs1. apply Hall. by right. }
    exists (r :: rs), w'. rewrite Hloop. simpl. rewrite <- app_assoc. simpl.
    split; [|congruence]. do 2 f_equal. f_equal. lia.
Qed.
End AllUnreadable.

(** X15. A manifest that loads with [N > 0] paths of which none can be read
    (each is missing or a directory) still yields a successful summary:
    [success = True], [files_processed = 0], [files_failed = N], an empty
    [languages_detected] and a throughput of zero.  No artifact is written:
    every path is after the run what it was before, apart from the
    directories that [os.makedirs] made on the way to the output
    directory. *)
Theorem process_batch_all_unreadable (P : platform) (batch_file output_dir job_id : string)
    (w : world) (batch_data : list (string * list string)) :
  can_makedirs P output_dir w →
  manifest_is P batch_file w batch_data →
  dict_get batch_data "files" [] ≠ [] →
  (∀ p, In p (dict_get batch_data "files" []) →
        fs w !! p = None ∨ fs w !! p = Some Dir) →
  ∃ summary w' fps,
    process_batch P batch_file output_dir job_id w = (inr summary, w')
    ∧ dict_item summary "success" = inr (PBool true)
    ∧ dict_item summary "files_processed" = inr (PInt 0)
    ∧ dict_item summary "files_failed"
      = inr (PInt (Z.of_nat (length (dict_get batch_data "files" []))))
    ∧ dict_item summary "languages_detected" = inr (PList [])
    ∧ dict_item summary "files_per_second" = inr fps
    ∧ (∃ v, py_num fps = Some v ∧ (v == 0)%Q)
    ∧ ∀ q, fs w' !! q = fs w !! q
           ∨ (fs w !! q = None ∧ fs w' !! q = Some Dir ∧ is_prefix q output_dir).
Proof.
  intros Hdir Hmanifest Hne Hall.
  destruct (process_batch_preamble P batch_file output_dir w _ Hdir Hmanifest)
    as (w1 & Hmk & Hload & _).
  destruct (os_makedirs_start P output_dir w) as (_ & _ & _ & _ & _ & Hframe).
  rewrite Hmk in Hframe. cbn [snd] in Hframe.
  rewrite process_batch_unfold. cbv zeta. rewrite Hmk, Hload.
  destruct (dict_get batch_data "files" []) as [|file_path rest] eqn:Hfiles; [done|].
  match goal with
  | |- context [batch_loop P output_dir ?fl ?a ?w0] =>
      destruct (batch_loop_all_unreadable P output_dir fl a w0)
        as (rs & w3 & -> & Hfs3)
  end.
  { intros p Hp. simpl. destruct (Hframe p) as [->|(_ & -> & _)].
    - by apply Hall.
    - by right. }
  simpl in Hfs3. eexists _, _, _. split; [reflexivity|]. simpl.
  repeat split; try done.
  - unfold files_per_second. destruct (Qlt_le_dec 0 _); simpl.
    + eexists. split; [done|]. unfold Qdiv. by rewrite Qmult_0_l.
    + by eexists.
  - intros q. rewrite Hfs3. apply Hframe.
Qed.

Lemma process_batch_all_unreadable_witness :
  can_makedirs mock_platform "out" bare_world
  ∧ manifest_is mock_platform "batch.json" bare_world [("files", ["a.py"; "missing.rs"])]
  ∧ dict_get [("files", ["a.py"; "missing.rs"])] "files" [] ≠ []
  ∧ (∀ p, In p (dict_get [("files", ["a.py"; "missing.rs"])] "files" []) →
          fs bare_world !! p = None ∨ fs bare_world !! p = Some Dir)
  ∧ ∃ summary w' fps,
      process_batch mock_platform "batch.json" "out" "job-1" bare_world
        = (inr summary, w')
      ∧ dict_item summary "success" = inr (PBool true)
      ∧ dict_item summary "files_processed" = inr (PInt 0)
      ∧ dict_item summary "files_failed"
        = inr (PInt (Z.of_nat (length (dict_get [("files", ["a.py"; "missing.rs"])]
                                         "files" []))))
      ∧ dict_item summary "languages_detected" = inr (PList [])
      ∧ dict_item summary "files_per_second" = inr fps
      ∧ (∃ v, py_num fps = Some v ∧ (v == 0)%Q)
      ∧ ∀ q, fs w' !! q = fs bare_world !! q
             ∨ (fs bare_world !! q = None ∧ fs w' !! q = Some Dir ∧ is_prefix q "out").
Proof.
  assert (Hdir : can_makedirs mock_platform "out" bare_world)
    by (by vm_compute).
  assert (Hmanifest : manifest_is mock_platform "batch.json" bare_world
                        [("files", ["a.py"; "missing.rs"])])
    by (eexists; split; [by vm_compute|split; by vm_compute]).
  assert (Hne : dict_get [("files", ["a.py"; "missing.rs"])] "files" [] ≠ [])
    by discriminate.
  assert (Hall : ∀ p, In p (dict_get [("files", ["a.py"; "missing.rs"])] "files" []) →
                      fs bare_world !! p = None ∨ fs bare_world !! p = Some Dir).
  { intros p [<-|[<-|[]]]; left; by vm_compute. }
  repeat (split; [assumption|]).
  exact (process_batch_all_unreadable mock_platform "batch.json" "out" "job-1"
           bare_world _ Hdir Hmanifest Hne Hall).
Defined.

(** ** process_batch: the set of languages *)

Lemma set_add_str_NoDup (s : string) (langs langs' : list pyval) :
  NoDup langs → set_add (PStr s) langs = inr langs' → NoDup langs'.
Proof.
  unfold set_add. simpl. intros Hnd.
  destruct (existsb (py_eqb (PStr s)) langs) eqn:Hex; intros [= <-]; [done|].
  apply NoDup_app. split; [done|]. split; [|apply NoDup_singleton].
  intros v Hv ->%list_elem_of_singleton.
  assert (Htrue : existsb (py_eqb (PStr s)) langs = true); [|congruence].
  apply existsb_exists. exists (PStr s). split; [by apply list_elem_of_In|].
  simpl. apply String.eqb_refl.
Qed.

Section BatchLanguages.
Context (P : platform) (output_dir : string).

Lemma batch_loop_languages_NoDup (files : list string) (acc acc' : batch_acc)
    (w w' : world) :
  batch_loop P output_dir files acc w = (inr acc', w') →
  NoDup (languages_detected acc) →
  NoDup (languages_detected acc').
Proof.
  revert acc w. induction files as [|file_path rest IH]; intros acc w.
  - by intros [= <- _].
  - destruct (process_file_total P file_path output_dir w)
      as (r & w1 & ok & Hrun & Hok & Hlang & _).
    cbn [batch_loop]. rewrite (bind_inr _ _ _ _ _ Hrun).
    rewrite Hok. unfold lift at 1. unfold bind at 1, ret at 1. cbn [truthy].
    destruct ok.
    + change (py_get r "language" (PStr "unknown")) with (language_of r).
      rewrite (Hlang eq_refl). unfold lift at 1. unfold bind at 1, ret at 1.
      destruct (set_add_str (detect_language P file_path) (languages_detected acc))
        as (languages1 & Hadd & _).
      rewrite Hadd. unfold lift at 1. unfold bind at 1, ret at 1.
      intros Hloop Hnd. apply (IH _ _ Hloop). simpl.
      by apply (set_add_str_NoDup _ _ _ Hnd Hadd).
    + intros Hloop Hnd. by apply (IH _ _ Hloop).
Qed.

Lemma runs_language (files : list string) (w : world) (rs : list pyval) (w' : world)
    (r : pyval) (l : pyval) :
  runs P output_dir files w rs w' →
  In r rs → succeeded r = true → language_of r = inr l →
  ∃ p, In p files ∧ l = PStr (detect_language P p).
Proof.
  induction 1 as [|file_path rest w r0 w1 rs w2 Hrun _ IH]; [done|].
  intros [<-|Hin] Hsucc Hl.
  - destruct (process_file_total P file_path output_dir w)
      as (r' & w1' & ok & Hrun' & Hok & Hlang & _).
    rewrite Hrun in Hrun'. injection Hrun' as <- <-.
    assert (ok = true) as -> by (unfold succeeded in Hsucc; by rewrite Hok in Hsucc).
    rewrite (Hlang eq_refl) in Hl. injection Hl as <-.
    exists file_path. split; [by left|done].
  - destruct (IH Hin Hsucc Hl) as (p & Hp & ->). exists p. split; [by right|done].
Qed.
End BatchLanguages.

(** X16. The [languages_detected] of a summary has no repetition, and each
    of its elements is the language that [detect_language] gives to one of
    the paths of the manifest: a label of the table or ["unknown"], never
    the default of the lookup on a result. *)
Theorem process_batch_languages (P : platform) (batch_file output_dir job_id : string)
    (w : world) (summary : pyval) (w' : world) (languages : list pyval) :
  process_batch P batch_file output_dir job_id w = (inr summary, w') →
  dict_item summary "languages_detected" = inr (PList languages) →
  NoDup languages
  ∧ ∃ batch_data,
      manifest_is P batch_file w batch_data
      ∧ ∀ l, In l languages →
             ∃ p, In p (dict_get batch_data "files" []) ∧ l = PStr (detect_language P p).
Proof.
  rewrite process_batch_unfold. cbv zeta.
  destruct (os_makedirs P output_dir (set_ticks S w)) as [[e|[]] w1] eqn:Hmkdir.
  { by intros [= <- _]. }
  destruct (open_json_load P batch_file w1) as [[e|batch_data] w2] eqn:Hload.
  { by intros [= <- _]. }
  destruct (process_batch_loaded_inv _ _ _ _ _ _ _ Hmkdir Hload) as [_ Hmanifest].
  destruct (dict_get batch_data "files" []) as [|file_path rest] eqn:Hfiles.
  { by intros [= <- _]. }
  match goal with
  | |- context [batch_loop P output_dir ?fl ?a ?w0] =>
      destruct (batch_loop_spec P output_dir fl a w0)
        as (rs & w3 & langs & Hloop & Hruns & _ & _ & _ & Hlangs);
      pose proof (batch_loop_languages_NoDup P output_dir fl a _ w0 _ Hloop) as Hnd
  end.
  rewrite Hloop. intros [= <- _] [= <-]. split; [apply Hnd; constructor|].
  exists batch_data. split; [done|]. rewrite Hfiles.
  intros l Hl. apply Hlangs in Hl as [[]|(r & Hr & Hsucc & Hlang)].
  by apply (runs_language P output_dir _ _ _ _ r l Hruns).
Qed.

Lemma process_batch_languages_witness :
  process_batch real_platform "four.json" "out" "job-1" sample_world
    = (inr (batch_summary (BatchAcc [] 2 2 [PStr "python"; PStr "rust"]) (3 - 0)),
       (process_batch real_platform "four.json" "out" "job-1" sample_world).2)
  ∧ dict_item (batch_summary (BatchAcc [] 2 2 [PStr "python"; PStr "rust"]) (3 - 0))
      "languages_detected" = inr (PList [PStr "python"; PStr "rust"])
  ∧ NoDup [PStr "python"; PStr "rust"]
  ∧ ∃ batch_data,
      manifest_is real_platform "four.json" sample_world batch_data
      ∧ ∀ l, In l [PStr "python"; PStr "rust"] →
             ∃ p, In p (dict_get batch_data "files" []) ∧ l = PStr (detect_language real_platform p).
Proof.
  assert (Hrun : process_batch real_platform "four.json" "out" "job-1" sample_world
                 = (inr (batch_summary (BatchAcc [] 2 2 [PStr "python"; PStr "rust"])
                           (3 - 0)),
                    (process_batch real_platform "four.json" "out" "job-1"
                       sample_world).2))
    by (by vm_compute).
  split; [exact Hrun|]. split; [reflexivity|].
  exact (process_batch_languages real_platform "four.json" "out" "job-1" sample_world
           _ _ _ Hrun eq_refl).
Defined.

(** ** process_batch: what every summary holds *)

(** X17. [process_batch] never raises and prints nothing.  Whatever its
    shape, the summary holds a Boolean ["success"], a ["message"], a
    [files_processed] that is not negative and a [processing_time], which is
    the last reading of the clock minus the first; a summary that is not a
    success reports [files_processed = 0]. *)
Theorem process_batch_summary_keys (P : platform) (batch_file output_dir job_id : string)
    (w : world) :
  ∃ summary w' ok message n,
    process_batch P batch_file output_dir job_id w = (inr summary, w')
    ∧ dict_item summary "success" = inr (PBool ok)
    ∧ dict_item summary "message" = inr (PStr message)
    ∧ dict_item summary "files_processed" = inr (PInt n)
    ∧ 0 ≤ n
    ∧ (ok = false → n = 0)
    ∧ dict_item summary "processing_time"
      = inr (PFloat (clock P (pred (ticks w')) - clock P (ticks w)))
    ∧ stdout w' = stdout w.
Proof.
  rewrite process_batch_unfold. cbv zeta.
  destruct (os_makedirs_start P output_dir w) as (_ & _ & _ & Hmk & _).
  destruct (os_makedirs P output_dir (set_ticks S w)) as [[e|[]] w1]; simpl in Hmk.
  { eexists _, _, false, _, 0. unfold batch_error_run. by repeat split. }
  pose proof (open_json_load_same P batch_file w1) as Hld.
  destruct (open_json_load P batch_file w1) as [[e|batch_data] w2]; simpl in Hld;
    subst w2.
  { eexists _, _, false, _, 0. unfold batch_error_run. by repeat split. }
  destruct (dict_get batch_data "files" []) as [|file_path rest].
  { eexists _, _, false, _, 0. by repeat split. }
  run_batch_loop P output_dir as (rs & w3 & langs & -> & _ & _ & Hout & _).
  simpl in Hout. eexists _, _, true, _, _. split; [reflexivity|]. simpl.
  repeat split; try done; [apply count_results_nonneg|congruence].
Qed.

(** ** process_batch: the artifacts at the end of a run *)

Section BatchArtifacts.
Context (P : platform) (output_dir : string).

Lemma process_file_keeps_files file_path w r w' (q : string) data :
  process_file P file_path output_dir w = (inr r, w') →
  fs w !! q = Some (File data) →
  ∃ data', fs w' !! q = Some (File data').
Proof.
  intros Hrun Hq.
  destruct (process_file_cases P file_path output_dir w) as (r0 & w0 & Hrun0 & Hcases).
  rewrite Hrun in Hrun0. injection Hrun0 as <- <-.
  destruct Hcases as [(msg & _ & [Hfs|Hfs])|(vr & now & _ & _ & Hfs)]; rewrite Hfs.
  - by exists data.
  - destruct (decide (output_filename_of P file_path output_dir = q)) as [<-|Hne].
    + rewrite lookup_insert_eq. by eexists.
    + rewrite lookup_insert_ne; [by exists data|done].
  - destruct (decide (output_filename_of P file_path output_dir = q)) as [<-|Hne].
    + rewrite lookup_insert_eq. by eexists.
    + rewrite lookup_insert_ne; [by exists data|done].
Qed.

Lemma runs_keeps_files files w rs w' (q : string) data :
  runs P output_dir files w rs w' →
  fs w !! q = Some (File data) →
  ∃ data', fs w' !! q = Some (File data').
Proof.
  intros Hruns. revert data.
  induction Hruns as [|file_path rest w r w1 rs w2 Hrun _ IH]; intros data Hq.
  - by exists data.
  - destruct (process_file_keeps_files _ _ _ _ _ _ Hrun Hq) as (data1 & Hq1).
    by apply (IH data1).
Qed.

Lemma runs_artifacts files w rs w' r :
  runs P output_dir files w rs w' →
  In r rs → succeeded r = true →
  ∃ name data,
    dict_item r "output_file" = inr (PStr name)
    ∧ ends_with ".vec.json" name
    ∧ fs w' !! name = Some (File data).
Proof.
  induction 1 as [|file_path rest w r0 w1 rs w2 Hrun Hruns IH]; [done|].
  intros [<-|Hin] Hsucc; [|by apply IH].
  destruct (process_file_cases P file_path output_dir w) as (r' & w0 & Hrun0 & Hcases).
  rewrite Hrun in Hrun0. injection Hrun0 as <- <-.
  destruct Hcases as [(msg & -> & _)|(vr & now & -> & _ & Hfs)]; [done|].
  assert (Hq : fs w1 !! output_filename_of P file_path output_dir
               = Some (artifact_of P file_path now vr))
    by (rewrite Hfs; apply lookup_insert_eq).
  destruct (runs_keeps_files _ _ _ _ _ _ Hruns Hq) as (data' & Hq').
  exists (output_filename_of P file_path output_dir), data'.
  split; [done|]. split; [apply output_filename_suffix|done].
Qed.
End BatchArtifacts.

(** X18. When a run of [process_batch] on a manifest that loads is over,
    every file that was processed successfully has its artifact.  The
    results [rs] are those of the run: of the invocations of [process_file]
    on the paths of the manifest, in order, from the world [os.makedirs]
    left to the world in which the run ends.  For each successful one the
    path that it reports as ["output_file"] ends with [.vec.json] and is a
    file in the final file system. *)
Theorem process_batch_artifacts (P : platform) (batch_file output_dir job_id : string)
    (w : world) (batch_data : list (string * list string)) :
  can_makedirs P output_dir w →
  manifest_is P batch_file w batch_data →
  ∃ summary w' rs w0 w2,
    process_batch P batch_file output_dir job_id w = (inr summary, w')
    ∧ os_makedirs P output_dir (set_ticks S w) = (inr tt, w0)
    ∧ runs P output_dir (dict_get batch_data "files" [])
        (batch_entry job_id (dict_get batch_data "files" []) w0) rs w2
    ∧ w' = set_ticks S w2
    ∧ ∀ r, In r rs → succeeded r = true →
           ∃ name data,
             dict_item r "output_file" = inr (PStr name)
             ∧ ends_with ".vec.json" name
             ∧ fs w' !! name = Some (File data).
Proof.
  intros Hdir Hmanifest.
  destruct (process_batch_preamble P batch_file output_dir w _ Hdir Hmanifest)
    as (w1 & Hmk & Hload & _).
  rewrite process_batch_unfold. cbv zeta. rewrite Hmk, Hload.
  destruct (dict_get batch_data "files" []) as [|file_path rest] eqn:Hfiles.
  - eexists _, _, [], w1, w1. split; [reflexivity|]. split; [reflexivity|].
    split; [constructor|]. split; [reflexivity|]. by intros r [].
  - run_batch_loop P output_dir as (rs & w3 & langs & -> & Hruns & _).
    eexists _, _, rs, w1, w3. split; [reflexivity|]. split; [reflexivity|].
    split; [exact Hruns|]. split; [reflexivity|].
    intros r Hr Hsucc. simpl.
    by apply (runs_artifacts P output_dir _ _ _ _ r Hruns).
Qed.

Lemma process_batch_artifacts_witness :
  can_makedirs real_platform "out" sample_world
  ∧ manifest_is real_platform "four.json" sample_world
      [("files", ["a.py"; "x.md"; "e.txt"; "Lib.RS"])]
  ∧ ∃ summary w' rs w0 w2,
      process_batch real_platform "four.json" "out" "job-1" sample_world
        = (inr summary, w')
      ∧ os_makedirs real_platform "out" (set_ticks S sample_world) = (inr tt, w0)
      ∧ runs real_platform "out"
          (dict_get [("files", ["a.py"; "x.md"; "e.txt"; "Lib.RS"])] "files" [])
          (batch_entry "job-1"
             (dict_get [("files", ["a.py"; "x.md"; "e.txt"; "Lib.RS"])] "files" []) w0)
          rs w2
      ∧ w' = set_ticks S w2
      ∧ ∀ r, In r rs → succeeded r = true →
             ∃ name data,
               dict_item r "output_file" = inr (PStr name)
               ∧ ends_with ".vec.json" name
               ∧ fs w' !! name = Some (File data).
Proof.
  assert (Hdir : can_makedirs real_platform "out" sample_world)
    by (by vm_compute).
  assert (Hmanifest : manifest_is real_platform "four.json" sample_world
                        [("files", ["a.py"; "x.md"; "e.txt"; "Lib.RS"])])
    by (eexists; split; [by vm_compute|split; by vm_compute]).
  split; [exact Hdir|]. split; [exact Hmanifest|].
  exact (process_batch_artifacts real_platform "four.json" "out" "job-1" sample_world
           _ Hdir Hmanifest).
Defined.
